(** * Relay release tooling: a shallow embedding of [version.py] and
      [debug-tools/watch.py]

    The two scripts are translated function by function.  Python values
    are modelled as follows.

    - [str] is [string]; the model covers ASCII text.  For code points
      above 127 CPython's [int] also accepts Unicode decimal digits and
      Unicode white space, which [Py.int] does not know: a statement
      that relies on [Py.int] refusing a string is made for strings that
      satisfy [Py.is_ascii].
    - [int] is [Z]: Python integers are unbounded.  The interpreter's
      configurable limit on the length of int/str conversions is not
      modelled.
    - a parsed JSON document is a [json] tree; a Python [dict] is an
      association list in insertion order.
    - a file holds either a JSON document or text that [json.load]
      rejects.  Files are stored parsed: reading back what [json.dump]
      wrote returns the dumped value.  The text that [json.dump] emits
      is computed by [Json.dumps] and recorded in the trace.  The files
      of the model are the ones the scripts open themselves, and they
      can be read and written: an error of the operating system while
      a file is opened, read or written (permissions, a full device) is
      not modelled, and neither is what git keeps in its own store.
    - exceptions are values of [exn]; a program is a function from the
      world to an outcome and a new world.
    - git, the hosting platform, the clock and the console are outside
      the program: every call is appended to the trace, and the
      environment [env] says whether the call raises. *)

From Stdlib Require Import ZArith NArith Lia Bool Ascii String.
From stdpp Require Import base gmap strings list.

Set Warnings "-register-all".

(** ** Python built-ins used by the scripts *)

Module Py.

(** [Py_ISSPACE]: the white space [int] skips around an ASCII literal. *)
Definition is_space (c : ascii) : bool :=
  let n := N_of_ascii c in
  ((9 <=? n) && (n <=? 13) || (n =? 32))%N.

Definition digit_value (c : ascii) : option N :=
  let n := N_of_ascii c in
  if ((48 <=? n) && (n <=? 57))%N then Some (n - 48)%N else None.

Definition digit_char (d : N) : ascii := ascii_of_N (48 + d).

Fixpoint skip_spaces (s : string) : string :=
  match s with
  | String c s' => if is_space c then skip_spaces s' else s
  | EmptyString => s
  end.

(** The digit scan of [PyLong_FromString] in base 10: digits, with
    single underscores allowed between them.  [prev_us] tells whether
    the previous character was an underscore.  The scan stops at the
    first character that is neither; a doubled or trailing underscore
    is an error. *)
Fixpoint scan_digits (s : string) (prev_us : bool) (acc : N)
  : option (N * string) :=
  match s with
  | String c s' =>
      if Ascii.eqb c "_" then
        if prev_us then None else scan_digits s' true acc
      else
        match digit_value c with
        | Some d => scan_digits s' false (10 * acc + d)%N
        | None => if prev_us then None else Some (acc, s)
        end
  | EmptyString => if prev_us then None else Some (acc, s)
  end.

(** The strings the model of [int] is exact on. *)
Fixpoint is_ascii (s : string) : bool :=
  match s with
  | EmptyString => true
  | String c s' => (N_of_ascii c <? 128)%N && is_ascii s'
  end.

(** [int(s)] for a [str] argument: [None] stands for [ValueError].  The
    definition follows CPython on ASCII strings; a string with a
    character above 127 is refused here, although CPython accepts some
    of them. *)
Definition int (s : string) : option Z :=
  let s1 := skip_spaces s in
  let '(negative, s2) :=
    match s1 with
    | String c r =>
        if Ascii.eqb c "+" then (false, r)
        else if Ascii.eqb c "-" then (true, r)
        else (false, s1)
    | EmptyString => (false, s1)
    end in
  match s2 with
  | String c _ =>
      match digit_value c with
      | Some _ =>
          match scan_digits s2 false 0 with
          | Some (n, rest) =>
              match skip_spaces rest with
              | EmptyString =>
                  Some (if negative then (- Z.of_N n)%Z else Z.of_N n)
              | String _ _ => None
              end
          | None => None
          end
      | None => None
      end
  | EmptyString => None
  end.

(** Decimal digits of [n], most significant first, put in front of
    [acc]. *)
Fixpoint dec_digits (fuel : nat) (n : N) (acc : string) : string :=
  let acc' := String (digit_char (n mod 10)) acc in
  match fuel with
  | O => acc'
  | S fuel' => if (n <? 10)%N then acc' else dec_digits fuel' (n / 10) acc'
  end.

(** [str(z)], which is also what an f-string field [{z}] produces. *)
Definition str_of_int (z : Z) : string :=
  let n := Z.abs_N z in
  let digits := dec_digits (N.to_nat (N.log2 n)) n EmptyString in
  if (z <? 0)%Z then String "-" digits else digits.

(** [s.split(sep)] for a one-character separator. *)
Fixpoint split (sep : ascii) (s : string) : list string :=
  match s with
  | EmptyString => [EmptyString]
  | String c s' =>
      if Ascii.eqb c sep then EmptyString :: split sep s'
      else
        match split sep s' with
        | piece :: pieces => String c piece :: pieces
        | [] => [String c EmptyString]
        end
  end.

(** A string in which the separator does not occur. *)
Fixpoint free_of (sep : ascii) (s : string) : Prop :=
  match s with
  | EmptyString => True
  | String c s' => c <> sep /\ free_of sep s'
  end.

(** [x in xs] for a list of strings. *)
Definition contains (x : string) (xs : list string) : bool :=
  existsb (String.eqb x) xs.

End Py.

(** ** JSON documents and [json.dump] *)

Module Json.

Inductive json : Type :=
| JNull
| JBool (b : bool)
| JInt (z : Z)
| JFloat (repr : string)
| JString (s : string)
| JList (items : list json)
| JDict (members : list (string * json)).

Definition dict := list (string * json).

(** [d[key]] on a dict; [None] stands for [KeyError]. *)
Fixpoint dict_get (key : string) (d : dict) : option json :=
  match d with
  | [] => None
  | (k, v) :: d' => if String.eqb k key then Some v else dict_get key d'
  end.

(** [d[key] = v]: an existing key keeps its position, a new key goes
    last. *)
Fixpoint dict_set (key : string) (v : json) (d : dict) : dict :=
  match d with
  | [] => [(key, v)]
  | (k, w) :: d' =>
      if String.eqb k key then (k, v) :: d'
      else (k, w) :: dict_set key v d'
  end.

Definition dquote : ascii := ascii_of_N 34.

Definition hex_digit (n : N) : ascii :=
  if (n <? 10)%N then ascii_of_N (48 + n) else ascii_of_N (87 + n).

(** One character of [py_encode_basestring_ascii]. *)
Definition escape_char (c : ascii) : string :=
  let n := N_of_ascii c in
  if (n =? 34)%N then String "\" (String dquote EmptyString)
  else if (n =? 92)%N then "\\"
  else if (n =? 8)%N then "\b"
  else if (n =? 12)%N then "\f"
  else if (n =? 10)%N then "\n"
  else if (n =? 13)%N then "\r"
  else if (n =? 9)%N then "\t"
  else if ((32 <=? n) && (n <=? 126))%N then String c EmptyString
  else "\u00" +:+ String (hex_digit (n / 16)) (String (hex_digit (n mod 16)) EmptyString).

Fixpoint escape (s : string) : string :=
  match s with
  | EmptyString => EmptyString
  | String c s' => escape_char c +:+ escape s'
  end.

Definition quote (s : string) : string :=
  String dquote (escape s +:+ String dquote EmptyString).

Fixpoint spaces (n : nat) : string :=
  match n with
  | O => EmptyString
  | S n' => String " " (spaces n')
  end.

Definition newline : string := String (ascii_of_N 10) EmptyString.

(** ['\n' + ' ' * (indent * level)] *)
Definition newline_indent (indent level : nat) : string :=
  newline +:+ spaces (indent * level).

(** [json.dumps(v, indent=indent)] for an integer [indent], at nesting
    depth [level]: the item separator is [","] followed by the
    indented new line, the key separator is [": "], and empty
    containers are written without a line break. *)
Fixpoint encode (indent level : nat) (v : json) : string :=
  match v with
  | JNull => "null"
  | JBool true => "true"
  | JBool false => "false"
  | JInt z => Py.str_of_int z
  | JFloat repr => repr
  | JString s => quote s
  | JList [] => "[]"
  | JList (x :: xs) =>
      "[" +:+ newline_indent indent (S level) +:+ encode indent (S level) x
      +:+ (fix rest (l : list json) : string :=
             match l with
             | [] => EmptyString
             | y :: l' =>
                 "," +:+ newline_indent indent (S level)
                 +:+ encode indent (S level) y +:+ rest l'
             end) xs
      +:+ newline_indent indent level +:+ "]"
  | JDict [] => "{}"
  | JDict ((k, x) :: ms) =>
      "{" +:+ newline_indent indent (S level)
      +:+ quote k +:+ ": " +:+ encode indent (S level) x
      +:+ (fix rest (l : list (string * json)) : string :=
             match l with
             | [] => EmptyString
             | (k', y) :: l' =>
                 "," +:+ newline_indent indent (S level)
                 +:+ quote k' +:+ ": " +:+ encode indent (S level) y
                 +:+ rest l'
             end) ms
      +:+ newline_indent indent level +:+ "}"
  end.

Definition dumps (v : json) (indent : nat) : string := encode indent 0 v.

End Json.

(** ** [version.py] *)

Module Version.
Import Json.

(** Calls into GitPython made by the script. *)
Inductive git_call : Type :=
| Repo_open (path : string)                (* git.Repo(path) *)
| Git_push_delete (remote tag : string)    (* repo.git.push('--delete', remote, tag) *)
| Repo_delete_tag (tag : string)           (* repo.delete_tag(tag) *)
| Git_add (path : string)                  (* repo.git.add(path) *)
| Git_commit (m : string)                  (* repo.git.commit(m=...) *)
| Git_push (force : bool)                  (* repo.git.push(force=...) *)
| Repo_create_tag (tag : string)           (* repo.create_tag(tag) *)
| Repo_remote (name : string)              (* repo.remote(name=...) *)
| Remote_push (remote refspec : string).   (* remote.push(refspec) *)

Inductive value_error : Type :=
| Invalid_literal (s : string)             (* int(s) rejected s *)
| Not_enough_values (expected got : nat)   (* unpacking ran out of items *)
| Too_many_values (expected : nat)         (* unpacking had items left *)
| Invalid_version_type.                    (* raised by bump_version *)

Inductive exn : Type :=
| FileNotFoundError (path : string)
| JSONDecodeError (path : string)
| KeyError (key : string)
| TypeError
| AttributeError
| ValueError (why : value_error)
| GitCommandError
| OtherException (name : string).

(** What the program does to the outside, in order. *)
Inductive effect : Type :=
| Write (path text : string)
| Git (c : git_call)
| Print (line : string)
| Sleep (seconds : Z)
| Get_repo (name : string)
| Get_releases (name : string).

Inductive content : Type :=
| Unparsable (text : string)
| Document (v : json).

Record world : Type := World {
  files : gmap string content;
  trace : list effect
}.

(** The environment of one run: the process environment variables,
    which git calls fail and how, and what the hosting platform
    answers (the tag names of the releases of a repository). *)
Record env : Type := Env {
  environ : gmap string string;
  git_raises : git_call -> option exn;
  get_repo_raises : string -> option exn;
  release_tags : string -> exn + list string
}.

Inductive outcome (A : Type) : Type :=
| Ok (a : A)
| Raise (e : exn).
Arguments Ok {A} a.
Arguments Raise {A} e.

#[export] Instance outcome_ret : MRet outcome := fun A a => Ok a.
#[export] Instance outcome_bind : MBind outcome := fun A B f m =>
  match m with
  | Ok a => f a
  | Raise e => Raise e
  end.

Definition prog (A : Type) : Type := world -> outcome A * world.

#[export] Instance prog_ret : MRet prog := fun A a w => (Ok a, w).
#[export] Instance prog_bind : MBind prog := fun A B f m w =>
  match m w with
  | (Ok a, w') => f a w'
  | (Raise e, w') => (Raise e, w')
  end.

Definition raise {A : Type} (e : exn) : prog A := fun w => (Raise e, w).

Definition lift {A : Type} (o : outcome A) : prog A := fun w => (o, w).

Definition emit (e : effect) : prog unit := fun w =>
  (Ok tt, World (files w) (trace w ++ [e])).

(** [with open(path, 'r') as file: data = json.load(file)] *)
Definition json_load (path : string) : prog json := fun w =>
  match files w !! path with
  | None => (Raise (FileNotFoundError path), w)
  | Some (Unparsable _) => (Raise (JSONDecodeError path), w)
  | Some (Document v) => (Ok v, w)
  end.

(** [with open(path, 'w') as file: json.dump(data, file, indent=indent)]
    on a file that can be written.  The step has no error path here:
    an [OSError] from [open] or from the write, which can leave the
    file truncated, is outside the model. *)
Definition json_dump (path : string) (data : json) (indent : nat)
  : prog unit := fun w =>
  (Ok tt, World (<[path := Document data]> (files w))
                (trace w ++ [Write path (dumps data indent)])).

(** [data[key]] *)
Definition getitem (data : json) (key : string) : outcome json :=
  match data with
  | JDict d =>
      match dict_get key d with
      | Some v => Ok v
      | None => Raise (KeyError key)
      end
  | _ => Raise TypeError
  end.

(** [data[key] = v] *)
Definition setitem (data : json) (key : string) (v : json)
  : outcome json :=
  match data with
  | JDict d => Ok (JDict (dict_set key v d))
  | _ => Raise TypeError
  end.

(** [v.split(sep)]: only [str] has the method. *)
Definition str_split (v : json) (sep : ascii) : outcome (list string) :=
  match v with
  | JString s => Ok (Py.split sep s)
  | _ => Raise AttributeError
  end.

(** One [next()] on the iterator [map(int, parts)]: [int] is applied
    only when the item is asked for. *)
Definition next_int (parts : list string)
  : outcome (option (Z * list string)) :=
  match parts with
  | [] => Ok None
  | s :: parts' =>
      match Py.int s with
      | Some z => Ok (Some (z, parts'))
      | None => Raise (ValueError (Invalid_literal s))
      end
  end.

Definition next_of_3 (got : nat) (parts : list string)
  : outcome (Z * list string) :=
  r ← next_int parts;
  match r with
  | Some item => Ok item
  | None => Raise (ValueError (Not_enough_values 3 got))
  end.

(** [major, minor, patch = map(int, parts)]: three items are taken,
    then one more is asked for to check that the iterator is
    exhausted. *)
Definition unpack3_ints (parts : list string) : outcome (Z * Z * Z) :=
  '(major, parts1) ← next_of_3 0 parts;
  '(minor, parts2) ← next_of_3 1 parts1;
  '(patch, parts3) ← next_of_3 2 parts2;
  r ← next_int parts3;
  match r with
  | None => Ok (major, minor, patch)
  | Some _ => Raise (ValueError (Too_many_values 3))
  end.

(** [f"{major}.{minor}.{patch}"] *)
Definition format_version (major minor patch : Z) : string :=
  Py.str_of_int major +:+ "." +:+ Py.str_of_int minor +:+ "."
  +:+ Py.str_of_int patch.

Definition set_version (file_path new_version : string) : prog string :=
  data ← json_load file_path;
  data ← lift (setitem data "version" (JString new_version));
  json_dump file_path data 2;;
  mret new_version.

Definition bump_version (file_path version_type : string) : prog string :=
  data ← json_load file_path;
  current_version ← lift (getitem data "version");
  parts ← lift (str_split current_version ".");
  '(major, minor, patch) ← lift (unpack3_ints parts);
  '(major, minor, patch) ←
    (if String.eqb version_type "major" then mret (major + 1, 0, 0)%Z
     else if String.eqb version_type "minor" then
       mret (major, minor + 1, 0)%Z
     else if String.eqb version_type "patch" then
       mret (major, minor, patch + 1)%Z
     else if String.eqb version_type "force" then
       mret (major, minor, patch)
     else raise (ValueError Invalid_version_type));
  let new_version := format_version major minor patch in
  data ← lift (setitem data "version" (JString new_version));
  json_dump file_path data 2;;
  mret new_version.

(** [REMOTE = os.environ.get("ORIGIN", "origin")] *)
Definition REMOTE (E : env) : string :=
  default "origin" (environ E !! "ORIGIN").

(** A call into git: the call is recorded, and it raises what the
    environment says.  What git does to its own store under [.git] is
    not part of [files]. *)
Definition git (E : env) (c : git_call) : prog unit :=
  emit (Git c);;
  match git_raises E c with
  | Some e => raise e
  | None => mret tt
  end.

(** [try: body / except git.exc.GitCommandError: pass] *)
Definition except_GitCommandError_pass (body : prog unit) : prog unit :=
  fun w =>
    match body w with
    | (Raise GitCommandError, w') => (Ok tt, w')
    | r => r
    end.

Definition delete_tag (E : env) (tag_name : string) : prog unit :=
  except_GitCommandError_pass (git E (Git_push_delete (REMOTE E) tag_name));;
  except_GitCommandError_pass (git E (Repo_delete_tag tag_name)).

Definition print (line : string) : prog unit := emit (Print line).

Definition sleep (seconds : Z) : prog unit := emit (Sleep seconds).

(** [g.get_repo(name)] *)
Definition get_repo (E : env) (name : string) : prog unit :=
  emit (Get_repo name);;
  match get_repo_raises E name with
  | Some e => raise e
  | None => mret tt
  end.

(** [[release.tag_name for release in repo.get_releases()]] *)
Definition get_release_tag_names (E : env) (name : string)
  : prog (list string) :=
  emit (Get_releases name);;
  match release_tags E name with
  | inl e => raise e
  | inr tags => mret tags
  end.

Definition main (E : env) (version_type : string) : prog unit :=
  let manifest_file := "manifest.json" in
  let beta_manifest_file := "manifest-beta.json" in
  git E (Repo_open ".");;
  let repo_name := "no-instructions/relay" in
  new_beta_version ← bump_version beta_manifest_file version_type;
  new_version ← set_version manifest_file new_beta_version;
  delete_tag E new_version;;
  git E (Git_add manifest_file);;
  git E (Git_add beta_manifest_file);;
  except_GitCommandError_pass
    (git E (Git_commit ("version: bump the version to " +:+ new_version)));;
  let force := String.eqb version_type "force" in
  git E (Git_push force);;
  git E (Repo_create_tag new_version);;
  git E (Repo_remote (REMOTE E));;
  git E (Remote_push (REMOTE E) new_version);;
  print "Waiting for GitHub to create the release...";;
  sleep 30;;
  get_repo E repo_name;;
  release_names ← get_release_tag_names E repo_name;
  if Py.contains new_version release_names
  then print ("Release " +:+ new_version +:+ " created successfully.")
  else print ("Release " +:+ new_version +:+ " not found.").

(** *** Observations used in the statements *)

(** The [version] member of the manifest stored at [path]. *)
Definition version_field (w : world) (path : string) : option json :=
  match files w !! path with
  | Some (Document (JDict d)) => dict_get "version" d
  | _ => None
  end.

(** Lines 65-94 of [main]: everything up to the push of the new tag.
    It returns [new_version]. *)
Definition main_publish (E : env) (version_type : string) : prog string :=
  git E (Repo_open ".");;
  new_beta_version ← bump_version "manifest-beta.json" version_type;
  new_version ← set_version "manifest.json" new_beta_version;
  delete_tag E new_version;;
  git E (Git_add "manifest.json");;
  git E (Git_add "manifest-beta.json");;
  except_GitCommandError_pass
    (git E (Git_commit ("version: bump the version to " +:+ new_version)));;
  git E (Git_push (String.eqb version_type "force"));;
  git E (Repo_create_tag new_version);;
  git E (Repo_remote (REMOTE E));;
  git E (Remote_push (REMOTE E) new_version);;
  mret new_version.

(** Lines 96-108 of [main]: the wait and the single look at the
    release list. *)
Definition main_confirm (E : env) (new_version : string) : prog unit :=
  print "Waiting for GitHub to create the release...";;
  sleep 30;;
  get_repo E "no-instructions/relay";;
  release_names ← get_release_tag_names E "no-instructions/relay";
  if Py.contains new_version release_names
  then print ("Release " +:+ new_version +:+ " created successfully.")
  else print ("Release " +:+ new_version +:+ " not found.").

(** The trace of [main_publish] when nothing fails. *)
Definition publish_trace (E : env) (version_type new_version : string)
    (beta primary : dict) : list effect :=
  [ Git (Repo_open ".");
    Write "manifest-beta.json" (dumps (JDict beta) 2);
    Write "manifest.json" (dumps (JDict primary) 2);
    Git (Git_push_delete (REMOTE E) new_version);
    Git (Repo_delete_tag new_version);
    Git (Git_add "manifest.json");
    Git (Git_add "manifest-beta.json");
    Git (Git_commit ("version: bump the version to " +:+ new_version));
    Git (Git_push (String.eqb version_type "force"));
    Git (Repo_create_tag new_version);
    Git (Repo_remote (REMOTE E));
    Git (Remote_push (REMOTE E) new_version) ].

(** The trace of [main_confirm] when the platform answers with the
    tag names [tags]. *)
Definition confirm_trace (new_version : string) (tags : list string)
  : list effect :=
  [ Print "Waiting for GitHub to create the release...";
    Sleep 30;
    Get_repo "no-instructions/relay";
    Get_releases "no-instructions/relay";
    Print (if decide (new_version ∈ tags)
           then "Release " +:+ new_version +:+ " created successfully."
           else "Release " +:+ new_version +:+ " not found.") ].

(** [m] leaves the files alone and appends to the trace only effects
    that satisfy [P]. *)
Definition appends {A : Type} (P : effect -> Prop) (m : prog A) : Prop :=
  forall w, files (m w).2 = files w
            /\ exists t, trace (m w).2 = trace w ++ t /\ Forall P t.

(** What [json_dump path (JDict d) 2] leaves behind. *)
Definition written (path : string) (d : dict) (w : world) : world :=
  World (<[path := Document (JDict d)]> (files w))
        (trace w ++ [Write path (dumps (JDict d) 2)]).

(** A member of a top-level object as [dumps _ 2] lays it out: on a
    line of its own, after exactly two spaces. *)
Definition member_line (member : string * json) : string :=
  newline +:+ "  " +:+ quote member.1 +:+ ": " +:+ encode 2 1 member.2.

Fixpoint join_comma (pieces : list string) : string :=
  match pieces with
  | [] => EmptyString
  | [piece] => piece
  | piece :: pieces' => piece +:+ "," +:+ join_comma pieces'
  end.

(** [w'] is [w] after the manifest at [path], which held the dict
    [d], was rewritten with its [version] set to [v]: the same keys
    in the same order, every other member where it was and with the
    value it had, and a text laid out with two spaces of
    indentation. *)
Definition version_rewritten (path : string) (d : dict) (v : string)
    (w w' : world) : Prop :=
  exists d' : dict,
    w' = written path d' w
    /\ dict_get "version" d' = Some (JString v)
    /\ map fst d' = map fst d
    /\ (forall (i : nat) (k : string) (x : json),
          d !! i = Some (k, x) -> k <> "version" -> d' !! i = Some (k, x))
    /\ dumps (JDict d') 2
       = "{" +:+ join_comma (map member_line d') +:+ newline +:+ "}".

End Version.

(** ** [debug-tools/watch.py] *)

Module Watch.

(** An item of [inotify.event_gen(yield_nones=False)]: the tuple
    [(header, type_names, path, filename)]. *)
Record event : Type := Event {
  header : Z * Z * Z * Z;          (* wd, mask, cookie, len *)
  type_names : list string;
  path : string;
  filename : string
}.

(** What reaches the process while it runs: an event from the
    generator, or SIGINT. *)
Inductive input : Type :=
| Delivered (e : event)
| Sigint.

Inductive status : Type :=
| Listening                  (* blocked, waiting for the next event *)
| Exited (code : Z)
| Uncaught (name : string).


(** [signal_handler]: prints and calls [sys.exit(0)]. *)
Definition signal_handler : list string * status :=
  (["Stopping..."], Exited 0).

(** The body of the [for event in ...] loop. *)
Definition on_event (ev : event) : list string :=
  let '(Event _ type_names path filename) := ev in
  if Py.contains "IN_MODIFY" type_names
  then ["Modified file: " +:+ path +:+ "/" +:+ filename]
  else [].

(** The loop over the generator, which never ends by itself: on a
    finite sequence of inputs it returns the lines printed so far and
    whether the process is still listening. *)
Fixpoint event_loop (inputs : list input) : list string * status :=
  match inputs with
  | [] => ([], Listening)
  | Delivered ev :: inputs' =>
      let '(lines, st) := event_loop inputs' in
      (on_event ev ++ lines, st)
  | Sigint :: _ => signal_handler
  end.

(** [main(directory)]; [tree_raises] is the exception, if any, that
    [InotifyTree(directory)] raises. *)
Definition main (tree_raises : option string) (directory : string)
    (inputs : list input) : list string * status :=
  match tree_raises with
  | Some name => ([], Uncaught name)
  | None =>
      let '(lines, st) := event_loop inputs in
      (("Listening for changes in: " +:+ directory) :: lines, st)
  end.


End Watch.

Import Json Version.

(** ** Sample manifests and environments *)

Module Samples.

Definition manifest (version : string) : dict :=
  [ ("id", JString "system3-relay");
    ("version", JString version);
    ("minAppVersion", JString "0.15.0");
    ("isDesktopOnly", JBool false) ].

(** A working directory with the two manifests, nothing done yet. *)
Definition checkout (beta primary : string) : world :=
  World (<["manifest-beta.json" := Document (JDict (manifest beta))]>
           (<["manifest.json" := Document (JDict (manifest primary))]> ∅))
        [].

(** Every call succeeds; the platform lists [tags]. *)
Definition calm (tags : list string) : env :=
  Env ∅ (fun _ => None) (fun _ => None) (fun _ => inr tags).

(** The tag does not exist yet and there is nothing to commit: both
    deletions and the commit raise [GitCommandError]. *)
Definition fresh_tag (tags : list string) : env :=
  Env ∅
      (fun c =>
         match c with
         | Git_push_delete _ _ | Repo_delete_tag _ | Git_commit _ =>
             Some GitCommandError
         | _ => None
         end)
      (fun _ => None) (fun _ => inr tags).

End Samples.

(** ** Further scenarios *)

Module Scenarios.
Import Samples.

(** A manifest without a [version] member. *)
Definition unversioned : dict :=
  [ ("id", JString "system3-relay");
    ("minAppVersion", JString "0.15.0") ].

(** A working directory in which only the beta manifest exists. *)
Definition beta_only (beta : string) : world :=
  World (<["manifest-beta.json" := Document (JDict (manifest beta))]> ∅) [].

(** A working directory in which [path] holds the dict [d]. *)
Definition single (path : string) (d : dict) : world :=
  World (<[path := Document (JDict d)]> ∅) [].

(** The remote refuses the push of the branch. *)
Definition push_rejected : env :=
  Env ∅
      (fun c =>
         match c with
         | Git_push _ => Some GitCommandError
         | _ => None
         end)
      (fun _ => None) (fun _ => inr []).

(** The hosting platform cannot be reached. *)
Definition offline : env :=
  Env ∅ (fun _ => None)
      (fun _ => Some (OtherException "GithubException"))
      (fun _ => inr []).

(** The git executable is missing: the remote tag deletion raises
    something that is not a [GitCommandError]. *)
Definition no_git : env :=
  Env ∅
      (fun c =>
         match c with
         | Git_push_delete _ _ => Some (OtherException "GitCommandNotFound")
         | _ => None
         end)
      (fun _ => None) (fun _ => inr []).

Definition modified (path filename : string) : Watch.event :=
  Watch.Event (1, 2, 0, 16)%Z ["IN_MODIFY"] path filename.

Definition created (path filename : string) : Watch.event :=
  Watch.Event (1, 256, 0, 16)%Z ["IN_CREATE"] path filename.

End Scenarios.

(** ** Conditions on a run *)

Module Runs.

(** The git calls of [main] after the manifests are written, up to the
    push of the tag. *)
Definition release_calls (E : env) (version_type v : string)
  : list effect :=
  [ Git (Git_push_delete (REMOTE E) v);
    Git (Repo_delete_tag v);
    Git (Git_add "manifest.json");
    Git (Git_add "manifest-beta.json");
    Git (Git_commit ("version: bump the version to " +:+ v));
    Git (Git_push (String.eqb version_type "force"));
    Git (Repo_create_tag v);
    Git (Repo_remote (REMOTE E));
    Git (Remote_push (REMOTE E) v) ].

(** The paths that were opened for writing, in order. *)
Fixpoint written_paths (t : list effect) : list string :=
  match t with
  | [] => []
  | Write path _ :: t' => path :: written_paths t'
  | _ :: t' => written_paths t'
  end.

(** [e] is not the writing of a file. *)
Definition no_write (e : effect) : Prop :=
  match e with
  | Write _ _ => False
  | _ => True
  end.

(** The call succeeds, or fails in the one way that the guards of
    [delete_tag] and of the commit let pass. *)
Definition tolerated (E : env) (c : git_call) : Prop :=
  git_raises E c = None \/ git_raises E c = Some GitCommandError.

(** Nothing stops the run between the writing of the manifests and the
    push of the tag [v]. *)
Definition unhindered (E : env) (version_type v : string) : Prop :=
  tolerated E (Git_push_delete (REMOTE E) v)
  /\ tolerated E (Repo_delete_tag v)
  /\ git_raises E (Git_add "manifest.json") = None
  /\ git_raises E (Git_add "manifest-beta.json") = None
  /\ tolerated E (Git_commit ("version: bump the version to " +:+ v))
  /\ git_raises E (Git_push (String.eqb version_type "force")) = None
  /\ git_raises E (Repo_create_tag v) = None
  /\ git_raises E (Repo_remote (REMOTE E)) = None
  /\ git_raises E (Remote_push (REMOTE E) v) = None.

End Runs.

(** * Properties *)

(** ** Decimal conversions and [split] *)

Module PyFacts.
Import Py.

(** The literals CPython accepts and refuses. *)
Example int_accepts :
  map int [" 12 "; "+1"; "-1"; "1_000"; "007"; "-0"]
  = [Some 12; Some 1; Some (-1); Some 1000; Some 7; Some 0]%Z.
Proof. reflexivity. Qed.

Example int_refuses :
  map int [EmptyString; "+"; "- 1"; "1__0"; "_1"; "1_"; "0x1"; "1 2"; "1.0"]
  = [None; None; None; None; None; None; None; None; None].
Proof. reflexivity. Qed.

Example split_samples :
  split "." "1.2.3" = ["1"; "2"; "3"]
  /\ split "." EmptyString = [EmptyString]
  /\ split "." "1..2" = ["1"; EmptyString; "2"]
  /\ split "." "." = [EmptyString; EmptyString].
Proof. repeat split. Qed.

Example str_of_int_samples :
  map str_of_int [0; 7; 10; 1234567890; -1; -120]%Z
  = ["0"; "7"; "10"; "1234567890"; "-1"; "-120"].
Proof. reflexivity. Qed.

Lemma digit_cases (d : N) :
  (d < 10)%N ->
  d ∈ [0; 1; 2; 3; 4; 5; 6; 7; 8; 9]%N.
Proof.
  intros H. rewrite !elem_of_cons.
  assert (d = 0 \/ d = 1 \/ d = 2 \/ d = 3 \/ d = 4 \/ d = 5 \/ d = 6
          \/ d = 7 \/ d = 8 \/ d = 9)%N by lia.
  tauto.
Qed.

(** A digit character is read back as its digit, and is none of the
    characters that [int] and [split] treat specially. *)
Lemma digit_char_spec (d : N) :
  (d < 10)%N ->
  digit_value (digit_char d) = Some d
  /\ Ascii.eqb (digit_char d) "_" = false
  /\ Ascii.eqb (digit_char d) "+" = false
  /\ Ascii.eqb (digit_char d) "-" = false
  /\ is_space (digit_char d) = false
  /\ digit_char d <> "."%char.
Proof.
  intros H%digit_cases. rewrite !elem_of_cons, elem_of_nil in H.
  destruct H as [->|[->|[->|[->|[->|[->|[->|[->|[->|[->|[]]]]]]]]]]];
    repeat split; try reflexivity; discriminate.
Qed.

Lemma dec_digits_head (fuel : nat) (n : N) (acc : string) :
  exists d rest, (d < 10)%N /\ dec_digits fuel n acc = String (digit_char d) rest.
Proof.
  revert n acc. induction fuel as [|fuel IH]; intros n acc; simpl.
  - exists (n mod 10)%N, acc. split; [apply N.mod_lt; lia | reflexivity].
  - destruct (n <? 10)%N.
    + exists (n mod 10)%N, acc. split; [apply N.mod_lt; lia | reflexivity].
    + apply IH.
Qed.

(** Reading the digits written for [n] yields [n]. *)
Lemma scan_dec_digits (fuel : nat) :
  forall (n : N) (rest : string),
    (n < 2 ^ N.of_nat (S fuel))%N ->
    scan_digits (dec_digits fuel n rest) false 0
    = scan_digits rest false n.
Proof.
  induction fuel as [|fuel IH]; intros n rest Hn.
  - assert (n < 10)%N as Hlt by (simpl in Hn; lia).
    simpl. rewrite N.mod_small by exact Hlt.
    destruct (digit_char_spec n Hlt) as (-> & -> & _). reflexivity.
  - cbn [dec_digits]. destruct (N.ltb_spec n 10) as [Hlt|Hge].
    + simpl. rewrite N.mod_small by exact Hlt.
      destruct (digit_char_spec n Hlt) as (-> & -> & _). reflexivity.
    + rewrite IH.
      * assert (n mod 10 < 10)%N as Hd by (apply N.mod_lt; lia).
        simpl. destruct (digit_char_spec _ Hd) as (-> & -> & _).
        f_equal. pose proof (N.div_mod n 10). lia.
      * rewrite Nat2N.inj_succ, N.pow_succ_r' in Hn.
        apply N.Div0.div_lt_upper_bound. lia.
Qed.

Lemma log2_fuel (n : N) : (n < 2 ^ N.of_nat (S (N.to_nat (N.log2 n))))%N.
Proof.
  rewrite Nat2N.inj_succ, N2Nat.id.
  destruct (N.eq_dec n 0%N) as [->|Hn]; [reflexivity|].
  apply N.log2_spec. lia.
Qed.

(** [int(str(z)) == z] *)
Lemma int_str_of_int (z : Z) : int (str_of_int z) = Some z.
Proof.
  unfold str_of_int.
  pose proof (scan_dec_digits _ (Z.abs_N z) EmptyString (log2_fuel _)) as Hscan.
  destruct (dec_digits_head (N.to_nat (N.log2 (Z.abs_N z))) (Z.abs_N z)
              EmptyString) as (d & rest & Hd & Hhead).
  rewrite Hhead in *.
  destruct (digit_char_spec d Hd) as (Hv & _ & Hplus & Hminus & Hsp & _).
  destruct (Z.ltb_spec z 0) as [Hneg|Hpos]; unfold int.
  - cbn [skip_spaces]. change (is_space "-") with false. cbv iota.
    change (Ascii.eqb "-" "+") with false.
    change (Ascii.eqb "-" "-") with true. cbv iota.
    rewrite Hv, Hscan. simpl. f_equal. lia.
  - cbn [skip_spaces]. rewrite Hsp, Hplus, Hminus, Hv, Hscan.
    simpl. f_equal. lia.
Qed.

Lemma split_free (sep : ascii) (s : string) :
  free_of sep s -> split sep s = [s].
Proof.
  induction s as [|c s IH]; simpl; [reflexivity|].
  intros [Hc Hs]. rewrite (proj2 (Ascii.eqb_neq c sep) Hc), IH by exact Hs.
  reflexivity.
Qed.

Lemma split_app (sep : ascii) (a b : string) :
  free_of sep a -> split sep (a +:+ String sep b) = a :: split sep b.
Proof.
  induction a as [|c a IH]; simpl.
  - intros _. rewrite Ascii.eqb_refl. reflexivity.
  - intros [Hc Ha]. rewrite (proj2 (Ascii.eqb_neq c sep) Hc), IH by exact Ha.
    reflexivity.
Qed.

Lemma dec_digits_free (fuel : nat) :
  forall (n : N) (acc : string),
    free_of "." acc -> free_of "." (dec_digits fuel n acc).
Proof.
  assert (forall n acc, free_of "." acc ->
            free_of "." (String (digit_char (n mod 10)) acc)) as Hstep.
  { intros n acc Hacc. split; [|exact Hacc].
    apply digit_char_spec, N.mod_lt. lia. }
  induction fuel as [|fuel IH]; intros n acc Hacc; cbn [dec_digits].
  - apply Hstep, Hacc.
  - destruct (n <? 10)%N; [apply Hstep, Hacc | apply IH, Hstep, Hacc].
Qed.

Lemma str_of_int_free (z : Z) : free_of "." (str_of_int z).
Proof.
  unfold str_of_int. destruct (z <? 0)%Z.
  - split; [discriminate | apply dec_digits_free; exact I].
  - apply dec_digits_free. exact I.
Qed.

Lemma contains_elem_of (x : string) (xs : list string) :
  contains x xs = true <-> x ∈ xs.
Proof.
  unfold contains. rewrite existsb_exists. split.
  - intros (y & Hy & Heq). apply String.eqb_eq in Heq. subst y.
    apply list_elem_of_In, Hy.
  - intros Hx. exists x. split; [apply list_elem_of_In, Hx|].
    apply String.eqb_refl.
Qed.

Lemma contains_decide (x : string) (xs : list string) :
  contains x xs = bool_decide (x ∈ xs).
Proof.
  destruct (contains x xs) eqn:H.
  - symmetry. apply bool_decide_eq_true, contains_elem_of, H.
  - symmetry. apply bool_decide_eq_false. intros Hx.
    apply contains_elem_of in Hx. congruence.
Qed.

End PyFacts.

(** ** The program monad *)

Module ProgFacts.

Lemma bind_ok {A B : Type} (m : prog A) (f : A -> prog B) w a w1 :
  m w = (Ok a, w1) -> (m ≫= f) w = f a w1.
Proof. intros H. unfold mbind, prog_bind. rewrite H. reflexivity. Qed.

Lemma bind_raise {A B : Type} (m : prog A) (f : A -> prog B) w e w1 :
  m w = (Raise e, w1) -> (m ≫= f) w = (Raise e, w1).
Proof. intros H. unfold mbind, prog_bind. rewrite H. reflexivity. Qed.

Lemma bind_ok_inv {A B : Type} (m : prog A) (f : A -> prog B) w b w' :
  (m ≫= f) w = (Ok b, w') ->
  exists a w1, m w = (Ok a, w1) /\ f a w1 = (Ok b, w').
Proof.
  unfold mbind, prog_bind. destruct (m w) as [[a|e] w1]; intros H.
  - exists a, w1. split; [reflexivity | exact H].
  - discriminate.
Qed.

Lemma bind_assoc {A B C : Type} (m : prog A) (f : A -> prog B)
    (g : B -> prog C) w :
  ((m ≫= f) ≫= g) w = (m ≫= fun a => f a ≫= g) w.
Proof.
  unfold mbind, prog_bind. destruct (m w) as [[a|e] w1]; reflexivity.
Qed.

Lemma bind_ext {A B : Type} (m : prog A) (f g : A -> prog B) w :
  (forall a w1, f a w1 = g a w1) -> (m ≫= f) w = (m ≫= g) w.
Proof.
  intros H. unfold mbind, prog_bind.
  destruct (m w) as [[a|e] w1]; [apply H | reflexivity].
Qed.

(** *** Programs that only append to the trace *)

Lemma appends_mret {A : Type} P (a : A) : appends P (mret a).
Proof.
  intros w. split; [reflexivity|]. exists []. simpl.
  rewrite app_nil_r. auto.
Qed.

Lemma appends_raise {A : Type} P e : appends P (@raise A e).
Proof.
  intros w. split; [reflexivity|]. exists []. simpl.
  rewrite app_nil_r. auto.
Qed.

Lemma appends_emit P e : P e -> appends P (emit e).
Proof.
  intros He w. split; [reflexivity|]. exists [e]. simpl. auto.
Qed.

Lemma appends_bind {A B : Type} P (m : prog A) (f : A -> prog B) :
  appends P m -> (forall a, appends P (f a)) -> appends P (m ≫= f).
Proof.
  intros Hm Hf w. destruct (Hm w) as (Hfiles & t & Ht & HP).
  unfold mbind, prog_bind. destruct (m w) as [[a|e] w1]; simpl in *.
  - destruct (Hf a w1) as (Hfiles' & t' & Ht' & HP').
    split; [congruence|]. exists (t ++ t').
    rewrite Ht', Ht, app_assoc. split; [reflexivity|].
    apply Forall_app; auto.
  - split; [exact Hfiles|]. exists t. auto.
Qed.

Lemma appends_git P E c : P (Git c) -> appends P (git E c).
Proof.
  intros Hc. unfold git. apply appends_bind; [apply appends_emit, Hc|].
  intros _. destruct (git_raises E c);
    [apply appends_raise | apply appends_mret].
Qed.

Lemma appends_except P (body : prog unit) :
  appends P body -> appends P (except_GitCommandError_pass body).
Proof.
  intros Hb w. specialize (Hb w). unfold except_GitCommandError_pass.
  destruct (body w) as [[[]|[]] w1]; exact Hb.
Qed.

Lemma appends_delete_tag P E tag :
  (forall c, P (Git c)) -> appends P (delete_tag E tag).
Proof.
  intros HP. unfold delete_tag.
  apply appends_bind; [|intros _]; apply appends_except, appends_git, HP.
Qed.

Lemma appends_get_repo P E name :
  P (Get_repo name) -> appends P (get_repo E name).
Proof.
  intros HP. unfold get_repo. apply appends_bind; [apply appends_emit, HP|].
  intros _. destruct (get_repo_raises E name);
    [apply appends_raise | apply appends_mret].
Qed.

Lemma appends_get_release_tag_names P E name :
  P (Get_releases name) -> appends P (get_release_tag_names E name).
Proof.
  intros HP. unfold get_release_tag_names.
  apply appends_bind; [apply appends_emit, HP|].
  intros _. destruct (release_tags E name);
    [apply appends_raise | apply appends_mret].
Qed.

(** *** Single steps *)

Lemma git_ok E c w :
  git_raises E c = None ->
  git E c w = (Ok tt, World (files w) (trace w ++ [Git c])).
Proof. intros H. unfold git, mbind, prog_bind. simpl. rewrite H. reflexivity. Qed.

Lemma git_raise E c e w :
  git_raises E c = Some e ->
  git E c w = (Raise e, World (files w) (trace w ++ [Git c])).
Proof. intros H. unfold git, mbind, prog_bind. simpl. rewrite H. reflexivity. Qed.

Lemma git_ok_inv E c w w1 :
  git E c w = (Ok tt, w1) ->
  git_raises E c = None /\ w1 = World (files w) (trace w ++ [Git c]).
Proof.
  destruct (git_raises E c) as [e|] eqn:H.
  - rewrite (git_raise _ _ _ _ H). discriminate.
  - rewrite (git_ok _ _ _ H). intros [= <-]. auto.
Qed.

(** A guarded git call that succeeds or raises [GitCommandError] is
    indistinguishable from one that succeeds. *)
Lemma except_git_pass E c w :
  git_raises E c = None \/ git_raises E c = Some GitCommandError ->
  except_GitCommandError_pass (git E c) w
  = (Ok tt, World (files w) (trace w ++ [Git c])).
Proof.
  unfold except_GitCommandError_pass. intros [H|H].
  - rewrite (git_ok _ _ _ H). reflexivity.
  - rewrite (git_raise _ _ _ _ H). reflexivity.
Qed.

(** Any other exception goes through the guard. *)
Lemma except_git_other E c e w :
  git_raises E c = Some e -> e <> GitCommandError ->
  except_GitCommandError_pass (git E c) w
  = (Raise e, World (files w) (trace w ++ [Git c])).
Proof.
  unfold except_GitCommandError_pass. intros H Hne.
  rewrite (git_raise _ _ _ _ H). destruct e; congruence.
Qed.

Lemma except_git_ok_inv E c w w1 :
  except_GitCommandError_pass (git E c) w = (Ok tt, w1) ->
  w1 = World (files w) (trace w ++ [Git c]).
Proof.
  unfold except_GitCommandError_pass.
  destruct (git_raises E c) as [e|] eqn:H.
  - rewrite (git_raise _ _ _ _ H). destruct e; congruence.
  - rewrite (git_ok _ _ _ H). congruence.
Qed.

End ProgFacts.

(** ** Dictionaries and the layout of [dumps] *)

Module JsonFacts.

(** Nested containers are indented by two more spaces per level, and
    empty ones stay on one line. *)
Example dumps_nested :
  dumps (JList [JInt 1; JList [JInt (-2); JNull]; JDict []; JBool true]) 2
  = "[" +:+ newline
    +:+ "  1," +:+ newline
    +:+ "  [" +:+ newline
    +:+ "    -2," +:+ newline
    +:+ "    null" +:+ newline
    +:+ "  ]," +:+ newline
    +:+ "  {}," +:+ newline
    +:+ "  true" +:+ newline
    +:+ "]".
Proof. reflexivity. Qed.

Lemma dict_get_set_eq (k : string) (v : json) (d : dict) :
  dict_get k (dict_set k v d) = Some v.
Proof.
  induction d as [|[k' x] d IH]; simpl.
  - rewrite String.eqb_refl. reflexivity.
  - destruct (String.eqb k' k) eqn:Hk; simpl; rewrite Hk; auto.
Qed.

Lemma dict_get_set_ne (k k' : string) (v : json) (d : dict) :
  k' <> k -> dict_get k' (dict_set k v d) = dict_get k' d.
Proof.
  intros Hne. induction d as [|[k0 x] d IH]; simpl.
  - rewrite (proj2 (String.eqb_neq k k')); [reflexivity | congruence].
  - destruct (String.eqb k0 k) eqn:Hk; simpl.
    + apply String.eqb_eq in Hk. subst k0.
      rewrite (proj2 (String.eqb_neq k k')); [reflexivity | congruence].
    + rewrite IH. reflexivity.
Qed.

(** Assigning to a key changes no other member, and moves none. *)
Lemma dict_set_other (k : string) (v : json) (d : dict)
    (i : nat) (k' : string) (x : json) :
  d !! i = Some (k', x) -> k' <> k -> dict_set k v d !! i = Some (k', x).
Proof.
  revert i. induction d as [|[k0 y] d IH]; intros i Hi Hne; [discriminate|].
  simpl. destruct (String.eqb k0 k) eqn:Hk.
  - destruct i as [|i]; simpl in *; [|exact Hi].
    apply String.eqb_eq in Hk. congruence.
  - destruct i as [|i]; simpl in *; [exact Hi | apply IH; assumption].
Qed.

(** Assigning to a key that is present keeps the keys and their
    order. *)
Lemma dict_set_keys (k : string) (v : json) (d : dict) :
  is_Some (dict_get k d) -> map fst (dict_set k v d) = map fst d.
Proof.
  induction d as [|[k0 y] d IH]; simpl; intros [x Hx]; [discriminate|].
  destruct (String.eqb k0 k) eqn:Hk; simpl; [reflexivity|].
  f_equal. apply IH. eauto.
Qed.

Lemma dict_set_nonempty (k : string) (v : json) (d : dict) :
  dict_set k v d <> [].
Proof. destruct d as [|[k0 y] d]; simpl; [|destruct (String.eqb k0 k)]; discriminate. Qed.

Lemma append_assoc (a b c : string) : (a +:+ b) +:+ c = a +:+ (b +:+ c).
Proof.
  induction a as [|x a IH]; [reflexivity|].
  change ((String x a +:+ b) +:+ c) with (String x ((a +:+ b) +:+ c)).
  rewrite IH. reflexivity.
Qed.

Lemma join_comma_cons (a b : string) (l : list string) :
  join_comma (a :: b :: l) = (a +:+ "," +:+ join_comma (b :: l)).
Proof. reflexivity. Qed.

(** The text of a non-empty top-level object: an opening brace, one
    line per member indented by two spaces, the members separated by
    commas, and the closing brace on a line of its own. *)
Lemma dumps_dict_layout (d : dict) :
  d <> [] ->
  dumps (JDict d) 2
  = "{" +:+ join_comma (map member_line d) +:+ newline +:+ "}".
Proof.
  destruct d as [|[k x] ms]; [congruence|]. intros _.
  unfold dumps. cbn [encode].
  change (newline_indent 2 1) with (newline +:+ "  ").
  change (newline_indent 2 0) with newline.
  set (rest := fix rest (l : list (string * json)) : string :=
         match l with
         | [] => EmptyString
         | (k', y) :: l' =>
             "," +:+ (newline +:+ "  ") +:+ quote k' +:+ ": "
             +:+ encode 2 1 y +:+ rest l'
         end).
  assert (forall first l tail,
            first +:+ rest l +:+ tail
            = join_comma (first :: map member_line l) +:+ tail) as Hrest.
  { intros first l. revert first.
    induction l as [|[k' y] l IH]; intros first tail.
    - reflexivity.
    - cbn [rest map]. fold rest.
      rewrite join_comma_cons, !append_assoc, <- IH.
      unfold member_line. cbn [fst snd].
      rewrite !append_assoc. reflexivity. }
  cbn [map]. rewrite <- Hrest.
  unfold member_line. cbn [fst snd]. rewrite !append_assoc.
  reflexivity.
Qed.

End JsonFacts.

(** ** [bump_version] and [set_version] *)

Module ManifestFacts.
Import PyFacts JsonFacts ProgFacts.

(** Unpacking succeeds exactly on three items that [int] accepts. *)
Lemma unpack3_ints_ok (parts : list string) (M m p : Z) :
  map Py.int parts = [Some M; Some m; Some p] ->
  unpack3_ints parts = Ok (M, m, p).
Proof.
  destruct parts as [|a [|b [|c [|x l]]]]; try discriminate.
  intros [= Ha Hb Hc].
  unfold unpack3_ints, next_of_3, next_int, mbind, outcome_bind.
  rewrite Ha, Hb, Hc. reflexivity.
Qed.

Lemma unpack3_ints_ok_inv (parts : list string) (M m p : Z) :
  unpack3_ints parts = Ok (M, m, p) ->
  map Py.int parts = [Some M; Some m; Some p].
Proof.
  unfold unpack3_ints, next_of_3, next_int, mbind, outcome_bind.
  destruct parts as [|a [|b [|c [|x l]]]]; simpl;
    repeat match goal with
           | |- context [Py.int ?s] => destruct (Py.int s)
           end; congruence.
Qed.

(** Every failure of the unpacking is a [ValueError]. *)
Lemma unpack3_ints_raise (parts : list string) (e : exn) :
  unpack3_ints parts = Raise e -> exists why, e = ValueError why.
Proof.
  unfold unpack3_ints, next_of_3, next_int, mbind, outcome_bind.
  destruct parts as [|a [|b [|c [|x l]]]]; simpl;
    repeat match goal with
           | |- context [Py.int ?s] => destruct (Py.int s)
           end; intros [= <-]; eauto.
Qed.

(** The components of a formatted version are read back unchanged. *)
Lemma split_format_version (a b c : Z) :
  map Py.int (Py.split "." (format_version a b c))
  = [Some a; Some b; Some c].
Proof.
  change (format_version a b c)
    with (Py.str_of_int a
          +:+ String "." (Py.str_of_int b +:+ String "." (Py.str_of_int c))).
  rewrite (split_app "." (Py.str_of_int a)) by apply str_of_int_free.
  rewrite (split_app "." (Py.str_of_int b)) by apply str_of_int_free.
  rewrite split_free by apply str_of_int_free.
  simpl. rewrite !int_str_of_int. reflexivity.
Qed.

(** [bump_version] on a manifest whose [version] member is a string:
    the parse comes first, then the mode is looked at, and the file
    is written last. *)
Lemma bump_version_run (path version_type : string) (w : world)
    (d : dict) (s : string) :
  files w !! path = Some (Document (JDict d)) ->
  dict_get "version" d = Some (JString s) ->
  let finish (a b c : Z) :=
    (Ok (format_version a b c),
     written path (dict_set "version" (JString (format_version a b c)) d) w)
  in
  bump_version path version_type w =
    match unpack3_ints (Py.split "." s) with
    | Raise e => (Raise e, w)
    | Ok (M, m, p) =>
        if String.eqb version_type "major" then finish (M + 1)%Z 0%Z 0%Z
        else if String.eqb version_type "minor" then finish M (m + 1)%Z 0%Z
        else if String.eqb version_type "patch" then finish M m (p + 1)%Z
        else if String.eqb version_type "force" then finish M m p
        else (Raise (ValueError Invalid_version_type), w)
    end.
Proof.
  intros Hfile Hget finish.
  unfold bump_version, mbind, prog_bind, json_load. rewrite Hfile.
  unfold lift, getitem. rewrite Hget. unfold str_split.
  destruct (unpack3_ints (Py.split "." s)) as [[[M m] p]|e];
    [|reflexivity].
  repeat match goal with
         | |- context [String.eqb version_type ?k] =>
             destruct (String.eqb version_type k)
         end; reflexivity.
Qed.

(** The four modes, on a version that parses. *)
Lemma bump_version_modes (w : world) (path mode s : string)
    (d : dict) (M m p : Z) :
  files w !! path = Some (Document (JDict d)) ->
  dict_get "version" d = Some (JString s) ->
  map Py.int (Py.split "." s) = [Some M; Some m; Some p] ->
  mode = "major" \/ mode = "minor" \/ mode = "patch" \/ mode = "force" ->
  exists M' m' p' : Z,
    (mode = "major" -> (M', m', p') = (M + 1, 0, 0)%Z)
    /\ (mode = "minor" -> (M', m', p') = (M, m + 1, 0)%Z)
    /\ (mode = "patch" -> (M', m', p') = (M, m, p + 1)%Z)
    /\ (mode = "force" -> (M', m', p') = (M, m, p))
    /\ bump_version path mode w
       = (Ok (format_version M' m' p'),
          written path
            (dict_set "version" (JString (format_version M' m' p')) d) w)
    /\ map Py.int (Py.split "." (format_version M' m' p'))
       = [Some M'; Some m'; Some p'].
Proof.
  intros Hfile Hget Hparse Hmode.
  pose proof (bump_version_run path mode w d s Hfile Hget) as Hrun.
  cbv zeta in Hrun. rewrite (unpack3_ints_ok _ _ _ _ Hparse) in Hrun.
  destruct Hmode as [-> | [-> | [-> | ->]]];
    cbn [String.eqb Ascii.eqb Bool.eqb] in Hrun.
  - exists (M + 1)%Z, 0%Z, 0%Z.
    repeat split; try discriminate; auto using split_format_version.
  - exists M, (m + 1)%Z, 0%Z.
    repeat split; try discriminate; auto using split_format_version.
  - exists M, m, (p + 1)%Z.
    repeat split; try discriminate; auto using split_format_version.
  - exists M, m, p.
    repeat split; try discriminate; auto using split_format_version.
Qed.

Lemma version_rewritten_set (path : string) (d : dict) (v : string)
    (w : world) :
  is_Some (dict_get "version" d) ->
  version_rewritten path d v w
    (written path (dict_set "version" (JString v) d) w).
Proof.
  intros Hsome. exists (dict_set "version" (JString v) d).
  split; [reflexivity|]. split; [apply dict_get_set_eq|].
  split; [apply dict_set_keys, Hsome|].
  split; [intros i k x; apply dict_set_other|].
  apply dumps_dict_layout, dict_set_nonempty.
Qed.

(** A successful [bump_version] rewrote the [version] member of a
    dict, and nothing else. *)
Lemma bump_version_ok_inv (path version_type v : string) (w w1 : world) :
  bump_version path version_type w = (Ok v, w1) ->
  exists d, files w !! path = Some (Document (JDict d))
            /\ w1 = written path (dict_set "version" (JString v) d) w.
Proof.
  unfold bump_version, mbind, prog_bind, json_load.
  destruct (files w !! path) as [[text|data]|] eqn:Hfile;
    try discriminate.
  unfold lift, getitem.
  destruct data as [| | | | |?|d]; try discriminate.
  destruct (dict_get "version" d) as [cur|]; [|discriminate].
  destruct (str_split cur ".") as [parts|]; [|discriminate].
  destruct (unpack3_ints parts) as [[[M m] p]|e]; [|discriminate].
  repeat match goal with
         | |- context [String.eqb version_type ?k] =>
             destruct (String.eqb version_type k)
         end; try discriminate;
    intros [= <- <-]; exists d; split; reflexivity.
Qed.

Lemma set_version_run (path v : string) (w : world) (d : dict) :
  files w !! path = Some (Document (JDict d)) ->
  set_version path v w
  = (Ok v, written path (dict_set "version" (JString v) d) w).
Proof.
  intros Hfile. unfold set_version, mbind, prog_bind, json_load.
  rewrite Hfile. reflexivity.
Qed.

Lemma set_version_ok_inv (path v v' : string) (w w1 : world) :
  set_version path v w = (Ok v', w1) ->
  v' = v
  /\ exists d, files w !! path = Some (Document (JDict d))
               /\ w1 = written path (dict_set "version" (JString v) d) w.
Proof.
  unfold set_version, mbind, prog_bind, json_load.
  destruct (files w !! path) as [[text|data]|] eqn:Hfile;
    try discriminate.
  destruct data as [| | | | |?|d]; try discriminate.
  intros [= <- <-]. split; [reflexivity|]. exists d. split; reflexivity.
Qed.

(** When they fail, neither function has written anything. *)
Lemma bump_version_raise_inv (path version_type : string) (e : exn)
    (w w1 : world) :
  bump_version path version_type w = (Raise e, w1) -> w1 = w.
Proof.
  unfold bump_version, mbind, prog_bind, json_load.
  destruct (files w !! path) as [[text|data]|] eqn:Hfile;
    try (intros [= _ <-]; reflexivity).
  unfold lift, getitem.
  destruct data as [| | | | |?|d]; try (intros [= _ <-]; reflexivity).
  destruct (dict_get "version" d) as [cur|];
    [|intros [= _ <-]; reflexivity].
  destruct (str_split cur ".") as [parts|];
    [|intros [= _ <-]; reflexivity].
  destruct (unpack3_ints parts) as [[[M m] p]|e'];
    [|intros [= _ <-]; reflexivity].
  repeat match goal with
         | |- context [String.eqb version_type ?k] =>
             destruct (String.eqb version_type k)
         end; try discriminate; intros [= _ <-]; reflexivity.
Qed.

Lemma set_version_raise_inv (path v : string) (e : exn) (w w1 : world) :
  set_version path v w = (Raise e, w1) -> w1 = w.
Proof.
  unfold set_version, mbind, prog_bind, json_load.
  destruct (files w !! path) as [[text|data]|] eqn:Hfile;
    try (intros [= _ <-]; reflexivity).
  destruct data as [| | | | |?|d]; try discriminate;
    intros [= _ <-]; reflexivity.
Qed.

End ManifestFacts.

(** ** The run of [main] *)

Module ReleaseFacts.
Import PyFacts JsonFacts ProgFacts ManifestFacts.

(** [main] is [main_publish] followed by [main_confirm]. *)
Lemma main_segments (E : env) (version_type : string) (w : world) :
  main E version_type w
  = (main_publish E version_type ≫= main_confirm E) w.
Proof.
  symmetry. unfold main_publish, main.
  repeat (rewrite bind_assoc; apply bind_ext; intros).
  reflexivity.
Qed.

Lemma main_confirm_run (E : env) (v : string) (tags : list string)
    (w : world) :
  get_repo_raises E "no-instructions/relay" = None ->
  release_tags E "no-instructions/relay" = inr tags ->
  main_confirm E v w
  = (Ok tt, World (files w) (trace w ++ confirm_trace v tags)).
Proof.
  intros Hrepo Htags.
  unfold main_confirm, get_repo, get_release_tag_names, print, sleep,
    emit, mbind, prog_bind, confirm_trace.
  simpl. rewrite Hrepo. simpl. rewrite Htags. simpl.
  rewrite contains_decide. case_bool_decide as Hv.
  - rewrite decide_True by exact Hv. simpl.
    rewrite <- !app_assoc. reflexivity.
  - rewrite decide_False by exact Hv. simpl.
    rewrite <- !app_assoc. reflexivity.
Qed.

Lemma main_confirm_ok_inv (E : env) (v : string) (w w' : world) :
  main_confirm E v w = (Ok tt, w') ->
  exists tags,
    get_repo_raises E "no-instructions/relay" = None
    /\ release_tags E "no-instructions/relay" = inr tags
    /\ w' = World (files w) (trace w ++ confirm_trace v tags).
Proof.
  destruct (get_repo_raises E "no-instructions/relay") as [e|] eqn:Hrepo.
  { unfold main_confirm, get_repo, print, sleep, emit, mbind, prog_bind.
    simpl. rewrite Hrepo. discriminate. }
  destruct (release_tags E "no-instructions/relay") as [e|tags] eqn:Htags.
  { unfold main_confirm, get_repo, get_release_tag_names, print, sleep,
      emit, mbind, prog_bind.
    simpl. rewrite Hrepo. simpl. rewrite Htags. discriminate. }
  rewrite (main_confirm_run E v tags w Hrepo Htags).
  intros [= <-]. exists tags. auto.
Qed.

Lemma delete_tag_run (E : env) (tag : string) (w : world) :
  git_raises E (Git_push_delete (REMOTE E) tag) = None
  \/ git_raises E (Git_push_delete (REMOTE E) tag) = Some GitCommandError ->
  git_raises E (Repo_delete_tag tag) = None
  \/ git_raises E (Repo_delete_tag tag) = Some GitCommandError ->
  delete_tag E tag w
  = (Ok tt, World (files w)
              (trace w ++ [Git (Git_push_delete (REMOTE E) tag);
                           Git (Repo_delete_tag tag)])).
Proof.
  intros Hremote Hlocal. unfold delete_tag.
  erewrite bind_ok by (apply except_git_pass, Hremote).
  rewrite except_git_pass by exact Hlocal. simpl.
  rewrite <- app_assoc. reflexivity.
Qed.

Lemma delete_tag_ok_inv (E : env) (tag : string) (w w1 : world) :
  delete_tag E tag w = (Ok tt, w1) ->
  w1 = World (files w)
         (trace w ++ [Git (Git_push_delete (REMOTE E) tag);
                      Git (Repo_delete_tag tag)]).
Proof.
  unfold delete_tag. intros H.
  apply bind_ok_inv in H as ([] & w0 & H0 & H).
  apply except_git_ok_inv in H0. apply except_git_ok_inv in H.
  subst. simpl. rewrite <- app_assoc. reflexivity.
Qed.

Ltac solve_appends :=
  repeat first
    [ apply appends_git; exact I
    | apply appends_except
    | apply appends_delete_tag; intros ?; exact I
    | apply appends_emit; exact I
    | apply appends_get_repo; exact I
    | apply appends_get_release_tag_names; exact I
    | apply appends_mret
    | match goal with
      | |- appends _ (if ?b then _ else _) => destruct b
      end
    | apply appends_bind; [|intros ?] ].

Lemma world_eta (w : world) (fs : gmap string content) (t : list effect) :
  files w = fs -> trace w = t -> w = World fs t.
Proof. destruct w. simpl. congruence. Qed.

(** Once both manifests are written, nothing that follows touches
    them again, whichever way the remaining steps go. *)
Lemma main_after_write (E : env) (version_type v : string)
    (w w1 w2 : world) :
  git_raises E (Repo_open ".") = None ->
  bump_version "manifest-beta.json" version_type
    (World (files w) (trace w ++ [Git (Repo_open ".")])) = (Ok v, w1) ->
  set_version "manifest.json" v w1 = (Ok v, w2) ->
  exists r t, main E version_type w = (r, World (files w2) (trace w2 ++ t)).
Proof.
  intros Hopen Hbump Hset. unfold main.
  erewrite bind_ok by (apply git_ok, Hopen).
  erewrite bind_ok by exact Hbump.
  erewrite bind_ok by exact Hset.
  match goal with
  | |- exists r t, ?rest w2 = _ =>
      assert (appends (fun _ => True) rest) as Hrest
        by (unfold print, sleep; solve_appends);
      destruct (Hrest w2) as (Hfiles & t & Htrace & _);
      destruct (rest w2) as [r w']
  end.
  exists r, t. f_equal. apply world_eta; assumption.
Qed.

(** When [bump_version] raises, [main] stops there: the exception goes
    to the caller and no file has been written. *)
Lemma main_bump_raises (E : env) (version_type : string) (e : exn)
    (w w1 : world) :
  git_raises E (Repo_open ".") = None ->
  bump_version "manifest-beta.json" version_type
    (World (files w) (trace w ++ [Git (Repo_open ".")])) = (Raise e, w1) ->
  main E version_type w
  = (Raise e, World (files w) (trace w ++ [Git (Repo_open ".")])).
Proof.
  intros Hopen Hbump. pose proof (bump_version_raise_inv _ _ _ _ _ Hbump).
  subst w1. unfold main.
  erewrite bind_ok by (apply git_ok, Hopen).
  erewrite bind_raise by exact Hbump. reflexivity.
Qed.

(** A run of [main_publish] that succeeds has rewritten both
    manifests and issued every git call, in order. *)
Lemma main_publish_ok_inv (E : env) (version_type v : string)
    (w w1 : world) :
  main_publish E version_type w = (Ok v, w1) ->
  exists beta primary,
    files w !! "manifest-beta.json" = Some (Document (JDict beta))
    /\ files w !! "manifest.json" = Some (Document (JDict primary))
    /\ let beta' := dict_set "version" (JString v) beta in
       let primary' := dict_set "version" (JString v) primary in
       w1 = World (<["manifest.json" := Document (JDict primary')]>
                     (<["manifest-beta.json" := Document (JDict beta')]>
                        (files w)))
              (trace w ++ publish_trace E version_type v beta' primary').
Proof.
  unfold main_publish. intros H.
  apply bind_ok_inv in H as ([] & w0 & Hopen & H).
  apply git_ok_inv in Hopen as [_ ->].
  apply bind_ok_inv in H as (v0 & wb & Hbump & H).
  apply bump_version_ok_inv in Hbump as (beta & Hbeta & ->).
  apply bind_ok_inv in H as (v1 & wp & Hset & H).
  apply set_version_ok_inv in Hset as (-> & primary & Hprimary & ->).
  apply bind_ok_inv in H as ([] & w3 & Hdel & H).
  apply delete_tag_ok_inv in Hdel as ->.
  apply bind_ok_inv in H as ([] & w4 & Hadd1 & H).
  apply git_ok_inv in Hadd1 as [_ ->].
  apply bind_ok_inv in H as ([] & w5 & Hadd2 & H).
  apply git_ok_inv in Hadd2 as [_ ->].
  apply bind_ok_inv in H as ([] & w6 & Hcommit & H).
  apply except_git_ok_inv in Hcommit as ->.
  apply bind_ok_inv in H as ([] & w7 & Hpush & H).
  apply git_ok_inv in Hpush as [_ ->].
  apply bind_ok_inv in H as ([] & w8 & Htag & H).
  apply git_ok_inv in Htag as [_ ->].
  apply bind_ok_inv in H as ([] & w9 & Hremote & H).
  apply git_ok_inv in Hremote as [_ ->].
  apply bind_ok_inv in H as ([] & w10 & Hrpush & H).
  apply git_ok_inv in Hrpush as [_ ->].
  injection H as <- <-.
  simpl in Hbeta, Hprimary.
  rewrite lookup_insert_ne in Hprimary by discriminate.
  exists beta, primary. split; [exact Hbeta|]. split; [exact Hprimary|].
  unfold written, publish_trace. simpl.
  rewrite <- !app_assoc. reflexivity.
Qed.

(** A successful run of [main]: the manifests it found, and the whole
    trace it left. *)
Lemma main_ok_inv (E : env) (version_type : string) (w w' : world) :
  main E version_type w = (Ok tt, w') ->
  exists v beta primary tags,
    files w !! "manifest-beta.json" = Some (Document (JDict beta))
    /\ files w !! "manifest.json" = Some (Document (JDict primary))
    /\ bump_version "manifest-beta.json" version_type
         (World (files w) (trace w ++ [Git (Repo_open ".")]))
       = (Ok v, written "manifest-beta.json"
                  (dict_set "version" (JString v) beta)
                  (World (files w) (trace w ++ [Git (Repo_open ".")])))
    /\ release_tags E "no-instructions/relay" = inr tags
    /\ let beta' := dict_set "version" (JString v) beta in
       let primary' := dict_set "version" (JString v) primary in
       w' = World (<["manifest.json" := Document (JDict primary')]>
                     (<["manifest-beta.json" := Document (JDict beta')]>
                        (files w)))
              (trace w ++ publish_trace E version_type v beta' primary'
               ++ confirm_trace v tags).
Proof.
  intros H. rewrite main_segments in H.
  apply bind_ok_inv in H as (v & w1 & Hpub & Hconf).
  pose proof Hpub as Hpub'.
  apply main_publish_ok_inv in Hpub' as (beta & primary & Hb & Hp & ->).
  apply main_confirm_ok_inv in Hconf as (tags & _ & Htags & ->).
  exists v, beta, primary, tags.
  split; [exact Hb|]. split; [exact Hp|]. split.
  - unfold main_publish in Hpub.
    apply bind_ok_inv in Hpub as ([] & w0 & Hopen & Hpub).
    apply git_ok_inv in Hopen as [_ ->].
    apply bind_ok_inv in Hpub as (v0 & wb & Hbump & Hpub).
    pose proof Hbump as Hbump'.
    apply bump_version_ok_inv in Hbump' as (beta0 & Hbeta0 & ->).
    apply bind_ok_inv in Hpub as (v1 & wp & Hset & Hpub).
    apply set_version_ok_inv in Hset as (-> & _).
    assert (v0 = v) as ->.
    { repeat (apply bind_ok_inv in Hpub as ([] & ? & _ & Hpub)).
      injection Hpub as ->. reflexivity. }
    simpl in Hbeta0. rewrite Hb in Hbeta0. injection Hbeta0 as <-.
    exact Hbump.
  - split; [exact Htags|]. simpl. rewrite <- app_assoc. reflexivity.
Qed.

End ReleaseFacts.

(** * The claims *)

(** ** Bumping and writing a manifest *)

Module ManifestSpec.
Import PyFacts JsonFacts ProgFacts ManifestFacts Samples.

(** C1. On a manifest whose [version] member splits at the dots into
    three pieces that [int] reads as [M], [m] and [p], [bump_version]
    with mode major, minor or patch returns the version
    [(M+1).0.0], [M.(m+1).0] or [M.m.(p+1)], and writes it into the
    [version] member of the file.  The result is a function of the
    file and the mode, and it splits again into exactly three pieces
    that [int] reads as the new components. *)
Theorem bump_version_increments (w : world) (path mode s : string)
    (d : dict) (M m p : Z) :
  files w !! path = Some (Document (JDict d)) ->
  dict_get "version" d = Some (JString s) ->
  map Py.int (Py.split "." s) = [Some M; Some m; Some p] ->
  mode = "major" \/ mode = "minor" \/ mode = "patch" ->
  exists M' m' p' : Z,
    (mode = "major" -> (M', m', p') = (M + 1, 0, 0)%Z)
    /\ (mode = "minor" -> (M', m', p') = (M, m + 1, 0)%Z)
    /\ (mode = "patch" -> (M', m', p') = (M, m, p + 1)%Z)
    /\ bump_version path mode w
       = (Ok (format_version M' m' p'),
          written path
            (dict_set "version" (JString (format_version M' m' p')) d) w)
    /\ map Py.int (Py.split "." (format_version M' m' p'))
       = [Some M'; Some m'; Some p'].
Proof.
  intros Hfile Hget Hparse Hmode.
  destruct (bump_version_modes w path mode s d M m p Hfile Hget Hparse)
    as (M' & m' & p' & H1 & H2 & H3 & _ & Hrun & Hback); [tauto|].
  exists M', m', p'. auto.
Qed.

Lemma bump_version_increments_witness :
  bump_version "manifest-beta.json" "minor" (checkout "1.2.3" "1.2.3")
  = (Ok "1.3.0",
     written "manifest-beta.json" (manifest "1.3.0")
       (checkout "1.2.3" "1.2.3")).
Proof.
  destruct (bump_version_increments (checkout "1.2.3" "1.2.3")
              "manifest-beta.json" "minor" "1.2.3" (manifest "1.2.3")
              1 2 3 eq_refl eq_refl eq_refl (or_intror (or_introl eq_refl)))
    as (M' & m' & p' & _ & Hminor & _ & Hrun & _).
  specialize (Hminor eq_refl). injection Hminor as HM Hm Hp.
  subst M' m' p'. exact Hrun.
Defined.

(** C3. On a manifest whose version parses as three integers, a mode
    other than major, minor, patch and force makes [bump_version]
    raise the invalid-argument [ValueError]; the world is returned as
    it was: no file is written and no file content changes. *)
Theorem bump_version_invalid_mode (w : world) (path mode s : string)
    (d : dict) (M m p : Z) :
  files w !! path = Some (Document (JDict d)) ->
  dict_get "version" d = Some (JString s) ->
  map Py.int (Py.split "." s) = [Some M; Some m; Some p] ->
  mode <> "major" -> mode <> "minor" -> mode <> "patch" ->
  mode <> "force" ->
  bump_version path mode w = (Raise (ValueError Invalid_version_type), w).
Proof.
  intros Hfile Hget Hparse H1 H2 H3 H4.
  rewrite (bump_version_run path mode w d s Hfile Hget).
  rewrite (unpack3_ints_ok _ _ _ _ Hparse).
  apply String.eqb_neq in H1, H2, H3, H4.
  rewrite H1, H2, H3, H4. reflexivity.
Qed.

Lemma bump_version_invalid_mode_witness :
  bump_version "manifest-beta.json" "bogus" (checkout "1.2.3" "1.2.3")
  = (Raise (ValueError Invalid_version_type), checkout "1.2.3" "1.2.3").
Proof.
  apply (bump_version_invalid_mode (checkout "1.2.3" "1.2.3")
           "manifest-beta.json" "bogus" "1.2.3" (manifest "1.2.3") 1 2 3);
    [reflexivity | reflexivity | reflexivity | | | |]; discriminate.
Defined.

(** C9. Whatever the mode, when the version string, an ASCII string,
    does not split into exactly three pieces that [int] accepts (too
    few pieces, too many, or a piece that is not an integer),
    [bump_version] raises a [ValueError] and returns the world as it
    was: nothing is written. *)
Theorem bump_version_rejects_malformed (w : world) (path mode s : string)
    (d : dict) :
  files w !! path = Some (Document (JDict d)) ->
  dict_get "version" d = Some (JString s) ->
  Py.is_ascii s = true ->
  ~ (exists M m p : Z,
       map Py.int (Py.split "." s) = [Some M; Some m; Some p]) ->
  exists why, bump_version path mode w = (Raise (ValueError why), w).
Proof.
  intros Hfile Hget _ Hbad.
  rewrite (bump_version_run path mode w d s Hfile Hget).
  destruct (unpack3_ints (Py.split "." s)) as [[[M m] p]|e] eqn:Hunpack.
  - exfalso. apply Hbad. exists M, m, p.
    apply unpack3_ints_ok_inv, Hunpack.
  - apply unpack3_ints_raise in Hunpack as [why ->]. exists why.
    reflexivity.
Qed.

Lemma bump_version_rejects_malformed_witness :
  exists why,
    bump_version "manifest-beta.json" "patch" (checkout "1.2.3.4" "1.2.3")
    = (Raise (ValueError why), checkout "1.2.3.4" "1.2.3").
Proof.
  apply (bump_version_rejects_malformed (checkout "1.2.3.4" "1.2.3")
           "manifest-beta.json" "patch" "1.2.3.4" (manifest "1.2.3.4"));
    [reflexivity | reflexivity | reflexivity |].
  intros (M & m & p & H). vm_compute in H. discriminate.
Defined.

(** C5. On a manifest that is an object with a [version] member,
    [set_version] and a successful [bump_version] replace the file by
    an object with the same keys in the same order in which only the
    value of [version] differs, and the text they write is the
    two-space layout: every top-level member on its own line after
    exactly two spaces.  No other file is touched. *)
Theorem only_version_member_changes (w : world) (path : string)
    (d : dict) :
  files w !! path = Some (Document (JDict d)) ->
  is_Some (dict_get "version" d) ->
  (forall v : string,
     exists w', set_version path v w = (Ok v, w')
                /\ version_rewritten path d v w w')
  /\ (forall (mode v : string) (w' : world),
        bump_version path mode w = (Ok v, w') ->
        version_rewritten path d v w w').
Proof.
  intros Hfile Hsome. split.
  - intros v. eexists. split; [apply set_version_run, Hfile|].
    apply version_rewritten_set, Hsome.
  - intros mode v w' Hrun.
    apply bump_version_ok_inv in Hrun as (d0 & Hfile0 & ->).
    rewrite Hfile in Hfile0. injection Hfile0 as <-.
    apply version_rewritten_set, Hsome.
Qed.

Lemma only_version_member_changes_witness :
  (forall v : string,
     exists w', set_version "manifest.json" v (checkout "1.2.3" "1.2.0")
                = (Ok v, w')
                /\ version_rewritten "manifest.json" (manifest "1.2.0") v
                     (checkout "1.2.3" "1.2.0") w')
  /\ (forall (mode v : string) (w' : world),
        bump_version "manifest.json" mode (checkout "1.2.3" "1.2.0")
        = (Ok v, w') ->
        version_rewritten "manifest.json" (manifest "1.2.0") v
          (checkout "1.2.3" "1.2.0") w').
Proof.
  apply (only_version_member_changes (checkout "1.2.3" "1.2.0")
           "manifest.json" (manifest "1.2.0")).
  - reflexivity.
  - exists (JString "1.2.0"). reflexivity.
Defined.

End ManifestSpec.

(** ** The release run *)

Module ReleaseSpec.
Import PyFacts JsonFacts ProgFacts ManifestFacts ReleaseFacts Samples.

(** C4. After a successful run of [main], in any mode, the [version]
    member of the primary manifest is the same string as the one of
    the beta manifest: the string that [bump_version] returned and
    wrote is the argument of [set_version], which writes it and
    returns it, and no later step touches the files. *)
Theorem main_propagates_version (E : env) (mode : string) (w w' : world) :
  main E mode w = (Ok tt, w') ->
  exists (v : string) (w1 w2 : world),
    bump_version "manifest-beta.json" mode
      (World (files w) (trace w ++ [Git (Repo_open ".")])) = (Ok v, w1)
    /\ set_version "manifest.json" v w1 = (Ok v, w2)
    /\ files w' = files w2
    /\ version_field w' "manifest-beta.json" = Some (JString v)
    /\ version_field w' "manifest.json" = Some (JString v).
Proof.
  intros Hrun.
  apply main_ok_inv in Hrun
    as (v & beta & primary & tags & Hb & Hp & Hbump & _ & ->).
  eexists v, _, _. split; [exact Hbump|]. split.
  { apply set_version_run. simpl.
    rewrite lookup_insert_ne by discriminate. exact Hp. }
  split; [reflexivity|]. unfold version_field. simpl. split.
  - rewrite lookup_insert_ne by discriminate.
    rewrite lookup_insert_eq. apply dict_get_set_eq.
  - rewrite lookup_insert_eq. apply dict_get_set_eq.
Qed.

Lemma main_propagates_version_witness :
  let w' := (main (calm ["1.2.4"]) "patch" (checkout "1.2.3" "1.2.0")).2 in
  version_field w' "manifest-beta.json" = Some (JString "1.2.4")
  /\ version_field w' "manifest.json" = Some (JString "1.2.4").
Proof.
  intros w'.
  assert (main (calm ["1.2.4"]) "patch" (checkout "1.2.3" "1.2.0")
          = (Ok tt, w')) as Hrun by (vm_compute; reflexivity).
  destruct (main_propagates_version _ _ _ _ Hrun)
    as (v & w1 & w2 & Hbump & _ & _ & Hbeta & Hprimary).
  vm_compute in Hbump. injection Hbump as <- _. split; assumption.
Defined.

(** C2, as stated, fails on a version string that parses as three
    integers without being their plain decimal rendering: with 01.2.3
    in both manifests, mode force returns 1.2.3 and rewrites both. *)
Lemma force_run_rewrites_noncanonical_version :
  let w := checkout "01.2.3" "01.2.3" in
  let r := main (calm ["1.2.3"]) "force" w in
  map Py.int (Py.split "." "01.2.3") = [Some 1; Some 2; Some 3]%Z
  /\ r.1 = Ok tt
  /\ version_field w "manifest-beta.json" = Some (JString "01.2.3")
  /\ version_field w "manifest.json" = Some (JString "01.2.3")
  /\ (bump_version "manifest-beta.json" "force"
        (World (files w) [Git (Repo_open ".")])).1 = Ok "1.2.3"
  /\ version_field r.2 "manifest-beta.json" = Some (JString "1.2.3")
  /\ version_field r.2 "manifest.json" = Some (JString "1.2.3")
  /\ "1.2.3" <> "01.2.3".
Proof. vm_compute. repeat split; try reflexivity. discriminate. Qed.

(** C2, amended. When the beta manifest's version is in canonical
    form, the plain decimal rendering of three integers, a successful
    run in mode force leaves it as it is: [bump_version] returns the
    very same string, the beta manifest's [version] is that string
    after the run, and so is the primary manifest's, which is therefore
    unchanged when it held the same version before.  The branch is
    pushed exactly once, with the force flag set. *)
Theorem force_run_keeps_version (E : env) (w w' : world) (M m p : Z) :
  version_field w "manifest-beta.json"
  = Some (JString (format_version M m p)) ->
  main E "force" w = (Ok tt, w') ->
  let v := format_version M m p in
  (exists w1,
     bump_version "manifest-beta.json" "force"
       (World (files w) (trace w ++ [Git (Repo_open ".")])) = (Ok v, w1))
  /\ version_field w' "manifest-beta.json"
     = version_field w "manifest-beta.json"
  /\ version_field w' "manifest.json" = Some (JString v)
  /\ (version_field w "manifest.json" = Some (JString v) ->
      version_field w' "manifest.json" = version_field w "manifest.json")
  /\ exists before after,
       trace w' = trace w ++ before ++ Git (Git_push true) :: after
       /\ (forall force, Git (Git_push force) ∉ before)
       /\ (forall force, Git (Git_push force) ∉ after).
Proof.
  intros Hver Hrun v.
  apply main_ok_inv in Hrun
    as (v0 & beta & primary & tags & Hb & Hp & Hbump & _ & ->).
  pose proof Hver as Hver'.
  unfold version_field in Hver. rewrite Hb in Hver.
  destruct (bump_version_modes
              (World (files w) (trace w ++ [Git (Repo_open ".")]))
              "manifest-beta.json" "force" (format_version M m p) beta
              M m p Hb Hver (split_format_version M m p))
    as (M' & m' & p' & _ & _ & _ & Hforce & Hrun & _); [tauto|].
  specialize (Hforce eq_refl). injection Hforce as HM' Hm' Hp'.
  subst M' m' p'. rewrite Hrun in Hbump. injection Hbump as Hv _.
  fold v in Hv, Hrun, Hver'. subst v0.
  assert (version_field
            (World (<["manifest.json" :=
                        Document (JDict (dict_set "version" (JString v) primary))]>
                      (<["manifest-beta.json" :=
                          Document (JDict (dict_set "version" (JString v) beta))]>
                         (files w)))
               (trace w ++ publish_trace E "force" v
                             (dict_set "version" (JString v) beta)
                             (dict_set "version" (JString v) primary)
                           ++ confirm_trace v tags))
            "manifest.json" = Some (JString v)) as Hprimary.
  { unfold version_field. simpl. rewrite lookup_insert_eq.
    apply dict_get_set_eq. }
  split; [eauto|]. split.
  { rewrite Hver'. unfold version_field. simpl.
    rewrite lookup_insert_ne by discriminate.
    rewrite lookup_insert_eq. apply dict_get_set_eq. }
  split; [exact Hprimary|]. split; [intros ->; exact Hprimary|].
  exists [ Git (Repo_open ".");
           Write "manifest-beta.json"
             (dumps (JDict (dict_set "version" (JString v) beta)) 2);
           Write "manifest.json"
             (dumps (JDict (dict_set "version" (JString v) primary)) 2);
           Git (Git_push_delete (REMOTE E) v);
           Git (Repo_delete_tag v);
           Git (Git_add "manifest.json");
           Git (Git_add "manifest-beta.json");
           Git (Git_commit ("version: bump the version to " +:+ v)) ].
  exists ([ Git (Repo_create_tag v);
            Git (Repo_remote (REMOTE E));
            Git (Remote_push (REMOTE E) v) ] ++ confirm_trace v tags).
  split; [reflexivity|]. unfold confirm_trace. simpl.
  split; intros force; rewrite !elem_of_cons, elem_of_nil; intros Hin;
    repeat (destruct Hin as [Hin|Hin]; [discriminate|]); exact Hin.
Qed.

Lemma force_run_keeps_version_witness :
  let w' := (main (calm ["1.2.3"]) "force" (checkout "1.2.3" "1.2.3")).2 in
  version_field w' "manifest-beta.json" = Some (JString "1.2.3")
  /\ version_field w' "manifest.json" = Some (JString "1.2.3").
Proof.
  intros w'.
  assert (main (calm ["1.2.3"]) "force" (checkout "1.2.3" "1.2.3")
          = (Ok tt, w')) as Hrun by (vm_compute; reflexivity).
  assert (version_field (checkout "1.2.3" "1.2.3") "manifest-beta.json"
          = Some (JString (format_version 1 2 3))) as Hver
    by (vm_compute; reflexivity).
  destruct (force_run_keeps_version _ _ _ 1 2 3 Hver Hrun)
    as (_ & Hbeta & Hprimary & _).
  rewrite Hbeta. split; [vm_compute; reflexivity | exact Hprimary].
Defined.

(** C6. A [GitCommandError] raised by the remote tag deletion, by the
    local tag deletion or by the commit is caught: [delete_tag] returns
    normally after attempting both deletions, and [main] goes on from
    the commit to the push of the branch.  Deleting a tag that does not
    exist therefore shows no error to the caller. *)
Theorem git_command_errors_are_swallowed (E : env) (mode v : string)
    (w w1 w2 : world) :
  let swallowed (c : git_call) :=
    git_raises E c = None \/ git_raises E c = Some GitCommandError in
  swallowed (Git_push_delete (REMOTE E) v) ->
  swallowed (Repo_delete_tag v) ->
  swallowed (Git_commit ("version: bump the version to " +:+ v)) ->
  git_raises E (Repo_open ".") = None ->
  bump_version "manifest-beta.json" mode
    (World (files w) (trace w ++ [Git (Repo_open ".")])) = (Ok v, w1) ->
  set_version "manifest.json" v w1 = (Ok v, w2) ->
  git_raises E (Git_add "manifest.json") = None ->
  git_raises E (Git_add "manifest-beta.json") = None ->
  (forall w0,
     delete_tag E v w0
     = (Ok tt, World (files w0)
                 (trace w0 ++ [Git (Git_push_delete (REMOTE E) v);
                               Git (Repo_delete_tag v)])))
  /\ exists r t,
       main E mode w
       = (r, World (files w2)
               (trace w2
                ++ [Git (Git_push_delete (REMOTE E) v);
                    Git (Repo_delete_tag v);
                    Git (Git_add "manifest.json");
                    Git (Git_add "manifest-beta.json");
                    Git (Git_commit ("version: bump the version to " +:+ v));
                    Git (Git_push (String.eqb mode "force"))]
                ++ t)).
Proof.
  intros swallowed Hremote Hlocal Hcommit Hopen Hbump Hset Hadd1 Hadd2.
  split; [intros w0; apply delete_tag_run; assumption|].
  unfold main.
  erewrite bind_ok by (apply git_ok, Hopen).
  erewrite bind_ok by exact Hbump.
  erewrite bind_ok by exact Hset.
  erewrite bind_ok by (apply delete_tag_run; assumption).
  erewrite bind_ok by (apply git_ok, Hadd1).
  erewrite bind_ok by (apply git_ok, Hadd2).
  erewrite bind_ok by (apply except_git_pass, Hcommit).
  destruct (git_raises E (Git_push (String.eqb mode "force")))
    as [e|] eqn:Hpush.
  - erewrite bind_raise by (apply git_raise, Hpush).
    exists (Raise e), []. simpl. rewrite <- !app_assoc. reflexivity.
  - erewrite bind_ok by (apply git_ok, Hpush).
    match goal with
    | |- exists r t, ?rest ?w6 = _ =>
        assert (appends (fun _ => True) rest) as Hrest
          by (unfold print, sleep; solve_appends);
        destruct (Hrest w6) as (Hfiles & t & Htrace & _);
        destruct (rest w6) as [r w']
    end.
    exists r, t. f_equal. apply world_eta; [exact Hfiles|].
    simpl in Htrace. rewrite Htrace. rewrite <- !app_assoc. reflexivity.
Qed.

Lemma git_command_errors_are_swallowed_witness :
  exists r t,
    main (fresh_tag ["1.2.4"]) "patch" (checkout "1.2.3" "1.2.3")
    = (r, World (files (checkout "1.2.4" "1.2.4"))
            ([Git (Repo_open ".");
              Write "manifest-beta.json" (dumps (JDict (manifest "1.2.4")) 2);
              Write "manifest.json" (dumps (JDict (manifest "1.2.4")) 2)]
             ++ [Git (Git_push_delete "origin" "1.2.4");
                 Git (Repo_delete_tag "1.2.4");
                 Git (Git_add "manifest.json");
                 Git (Git_add "manifest-beta.json");
                 Git (Git_commit "version: bump the version to 1.2.4");
                 Git (Git_push false)]
             ++ t)).
Proof.
  pose (w0 := World (files (checkout "1.2.3" "1.2.3"))
                [Git (Repo_open ".")]).
  pose (w1 := written "manifest-beta.json" (manifest "1.2.4") w0).
  pose (w2 := written "manifest.json" (manifest "1.2.4") w1).
  assert (bump_version "manifest-beta.json" "patch" w0 = (Ok "1.2.4", w1))
    as Hbump by (vm_compute; reflexivity).
  assert (set_version "manifest.json" "1.2.4" w1 = (Ok "1.2.4", w2))
    as Hset by (vm_compute; reflexivity).
  destruct (git_command_errors_are_swallowed (fresh_tag ["1.2.4"]) "patch"
              "1.2.4" (checkout "1.2.3" "1.2.3") w1 w2
              (or_intror eq_refl) (or_intror eq_refl) (or_intror eq_refl)
              eq_refl Hbump Hset eq_refl eq_refl)
    as (_ & r & t & Hmain).
  exists r, t. exact Hmain.
Defined.

(** C7. Once the new tag is pushed, [main] prints that it waits, sleeps
    30 seconds once, asks for the repository and for its releases once,
    and prints the success message if some release carries the new
    version as its tag name and the not-found message otherwise; in
    both cases it returns normally.  Nothing before that point sleeps
    or queries the platform: there is no second attempt. *)
Theorem release_is_checked_once (E : env) (mode v : string) (w w1 : world)
    (tags : list string) :
  main_publish E mode w = (Ok v, w1) ->
  get_repo_raises E "no-instructions/relay" = None ->
  release_tags E "no-instructions/relay" = inr tags ->
  main E mode w
  = (Ok tt,
     World (files w1)
       (trace w1
        ++ [Print "Waiting for GitHub to create the release...";
            Sleep 30;
            Get_repo "no-instructions/relay";
            Get_releases "no-instructions/relay";
            Print (if decide (v ∈ tags)
                   then "Release " +:+ v +:+ " created successfully."
                   else "Release " +:+ v +:+ " not found.")]))
  /\ exists beta primary,
       trace w1 = trace w ++ publish_trace E mode v beta primary.
Proof.
  intros Hpub Hrepo Htags. split.
  - rewrite main_segments. erewrite bind_ok by exact Hpub.
    apply main_confirm_run; assumption.
  - apply main_publish_ok_inv in Hpub as (beta & primary & _ & _ & ->).
    eexists _, _. reflexivity.
Qed.

Lemma release_is_checked_once_witness :
  exists w1,
    main (calm ["1.2.3"; "1.3.0"]) "minor" (checkout "1.2.3" "1.2.3")
    = (Ok tt,
       World (files w1)
         (trace w1
          ++ [Print "Waiting for GitHub to create the release...";
              Sleep 30;
              Get_repo "no-instructions/relay";
              Get_releases "no-instructions/relay";
              Print "Release 1.3.0 created successfully."])).
Proof.
  pose (w1 := (main_publish (calm ["1.2.3"; "1.3.0"]) "minor"
                 (checkout "1.2.3" "1.2.3")).2).
  assert (main_publish (calm ["1.2.3"; "1.3.0"]) "minor"
            (checkout "1.2.3" "1.2.3") = (Ok "1.3.0", w1)) as Hpub
    by (vm_compute; reflexivity).
  destruct (release_is_checked_once (calm ["1.2.3"; "1.3.0"]) "minor" "1.3.0"
              (checkout "1.2.3" "1.2.3") w1 ["1.2.3"; "1.3.0"]
              Hpub eq_refl eq_refl) as [Hmain _].
  exists w1. rewrite decide_True in Hmain; [exact Hmain|].
  rewrite !elem_of_cons. auto.
Defined.

(** C10. Negative components are not refused.  When the version of the
    beta manifest parses as [M], [m], [p] and one of them is negative,
    [bump_version] succeeds in each of the four modes and writes the
    bumped version, negative components included; provided the
    repository opens and the primary manifest is an object, [main]
    leaves that version in both manifests, however the later steps
    go. *)
Theorem negative_components_are_accepted (E : env) (w : world)
    (mode s : string) (beta primary : dict) (M m p : Z) :
  files w !! "manifest-beta.json" = Some (Document (JDict beta)) ->
  dict_get "version" beta = Some (JString s) ->
  map Py.int (Py.split "." s) = [Some M; Some m; Some p] ->
  (M < 0 \/ m < 0 \/ p < 0)%Z ->
  mode = "major" \/ mode = "minor" \/ mode = "patch" \/ mode = "force" ->
  files w !! "manifest.json" = Some (Document (JDict primary)) ->
  git_raises E (Repo_open ".") = None ->
  exists M' m' p' : Z,
    (mode = "major" -> (M', m', p') = (M + 1, 0, 0)%Z)
    /\ (mode = "minor" -> (M', m', p') = (M, m + 1, 0)%Z)
    /\ (mode = "patch" -> (M', m', p') = (M, m, p + 1)%Z)
    /\ (mode = "force" -> (M', m', p') = (M, m, p))
    /\ let v := format_version M' m' p' in
       bump_version "manifest-beta.json" mode w
       = (Ok v, written "manifest-beta.json"
                  (dict_set "version" (JString v) beta) w)
       /\ map Py.int (Py.split "." v) = [Some M'; Some m'; Some p']
       /\ version_field (main E mode w).2 "manifest-beta.json"
          = Some (JString v)
       /\ version_field (main E mode w).2 "manifest.json"
          = Some (JString v).
Proof.
  intros Hb Hget Hparse _ Hmode Hp Hopen.
  destruct (bump_version_modes w "manifest-beta.json" mode s beta M m p
              Hb Hget Hparse Hmode)
    as (M' & m' & p' & H1 & H2 & H3 & H4 & Hrun & Hback).
  exists M', m', p'. do 4 (split; [assumption|]).
  intros v. split; [exact Hrun|]. split; [exact Hback|].
  destruct (bump_version_modes
              (World (files w) (trace w ++ [Git (Repo_open ".")]))
              "manifest-beta.json" mode s beta M m p Hb Hget Hparse Hmode)
    as (M2 & m2 & p2 & G1 & G2 & G3 & G4 & Hrun' & _).
  assert ((M2, m2, p2) = (M', m', p')) as Heq.
  { destruct Hmode as [Hm | [Hm | [Hm | Hm]]];
      [rewrite (G1 Hm), (H1 Hm) | rewrite (G2 Hm), (H2 Hm)
       | rewrite (G3 Hm), (H3 Hm) | rewrite (G4 Hm), (H4 Hm)];
      reflexivity. }
  injection Heq as -> -> ->. fold v in Hrun'.
  set (w1 := written "manifest-beta.json"
                (dict_set "version" (JString v) beta)
                (World (files w) (trace w ++ [Git (Repo_open ".")])))
    in Hrun'.
  assert (files w1 !! "manifest.json" = Some (Document (JDict primary)))
    as Hp1.
  { unfold w1. simpl. rewrite lookup_insert_ne by discriminate. exact Hp. }
  destruct (main_after_write E mode v w w1 _ Hopen Hrun'
              (set_version_run "manifest.json" v w1 primary Hp1))
    as (r & t & ->).
  unfold version_field. simpl. split.
  - rewrite lookup_insert_ne by discriminate.
    rewrite lookup_insert_eq. apply dict_get_set_eq.
  - rewrite lookup_insert_eq. apply dict_get_set_eq.
Qed.

Lemma negative_components_are_accepted_witness :
  bump_version "manifest-beta.json" "patch" (checkout "-1.2.3" "1.2.3")
  = (Ok "-1.2.4",
     written "manifest-beta.json" (manifest "-1.2.4")
       (checkout "-1.2.3" "1.2.3"))
  /\ version_field
       (main (fresh_tag []) "patch" (checkout "-1.2.3" "1.2.3")).2
       "manifest-beta.json" = Some (JString "-1.2.4")
  /\ version_field
       (main (fresh_tag []) "patch" (checkout "-1.2.3" "1.2.3")).2
       "manifest.json" = Some (JString "-1.2.4").
Proof.
  assert (map Py.int (Py.split "." "-1.2.3")
          = [Some (-1)%Z; Some 2%Z; Some 3%Z]) as Hparse
    by (vm_compute; reflexivity).
  destruct (negative_components_are_accepted (fresh_tag []) 
              (checkout "-1.2.3" "1.2.3") "patch" "-1.2.3"
              (manifest "-1.2.3") (manifest "1.2.3") (-1) 2 3
              eq_refl eq_refl Hparse (or_introl eq_refl)
              (or_intror (or_intror (or_introl eq_refl))) eq_refl eq_refl)
    as (M' & m' & p' & _ & _ & Hpatch & _ & Hrun & _ & Hbeta & Hprimary).
  specialize (Hpatch eq_refl). injection Hpatch as HM' Hm' Hp'.
  subst M' m' p'. split; [exact Hrun|]. split; [exact Hbeta | exact Hprimary].
Defined.

End ReleaseSpec.

(** ** The watcher *)

Module WatchSpec.
Import PyFacts Watch.

Lemma event_loop_snoc (received : list event) (ev : event) :
  event_loop (map Delivered (received ++ [ev]))
  = ((event_loop (map Delivered received)).1 ++ on_event ev, Listening).
Proof.
  induction received as [|e received IH]; simpl.
  - rewrite app_nil_r. reflexivity.
  - rewrite IH. destruct (event_loop (map Delivered received)) as [lines st].
    simpl. rewrite app_assoc. reflexivity.
Qed.

(** C8. For every event that the watcher receives, it prints the line
    [Modified file: <path>/<filename>] when [IN_MODIFY] is among the
    event's type names, and prints nothing for that event otherwise. *)
Theorem watcher_prints_modified_only (directory : string)
    (received : list event) (ev : event) :
  (main None directory (map Delivered (received ++ [ev]))).1
  = (main None directory (map Delivered received)).1
    ++ (if decide ("IN_MODIFY" ∈ type_names ev)
        then ["Modified file: " +:+ path ev +:+ "/" +:+ filename ev]
        else []).
Proof.
  unfold main. rewrite event_loop_snoc.
  destruct (event_loop (map Delivered received)) as [lines st]. simpl.
  f_equal. f_equal. destruct ev as [hd names p f]. simpl.
  rewrite contains_decide. case_bool_decide as Hin.
  - rewrite decide_True by exact Hin. reflexivity.
  - rewrite decide_False by exact Hin. reflexivity.
Qed.

End WatchSpec.


(** * Further properties *)

(** ** More on the manifests *)

Module ManifestMore.
Import PyFacts JsonFacts ProgFacts ManifestFacts.

(** A successful [bump_version] found an object whose [version] is a
    string of three integers, and was given one of the four modes. *)
Lemma bump_version_ok_full (path mode v : string) (w w1 : world) :
  bump_version path mode w = (Ok v, w1) ->
  exists (d : dict) (s : string) (M m p : Z),
    files w !! path = Some (Document (JDict d))
    /\ dict_get "version" d = Some (JString s)
    /\ map Py.int (Py.split "." s) = [Some M; Some m; Some p]
    /\ (mode = "major" \/ mode = "minor" \/ mode = "patch"
        \/ mode = "force").
Proof.
  unfold bump_version, mbind, prog_bind, json_load.
  destruct (files w !! path) as [[text|data]|] eqn:Hfile; try discriminate.
  unfold lift, getitem.
  destruct data as [| | | | |?|d]; try discriminate.
  destruct (dict_get "version" d) as [cur|] eqn:Hget; [|discriminate].
  destruct cur as [| | | |s| |]; try discriminate.
  unfold str_split.
  destruct (unpack3_ints (Py.split "." s)) as [[[M m] p]|e] eqn:Hun;
    [|discriminate].
  intros H. exists d, s, M, m, p.
  split; [reflexivity|]. split; [exact Hget|].
  split; [apply unpack3_ints_ok_inv, Hun|].
  destruct (String.eqb mode "major") eqn:E1;
    [left; apply String.eqb_eq, E1|].
  destruct (String.eqb mode "minor") eqn:E2;
    [right; left; apply String.eqb_eq, E2|].
  destruct (String.eqb mode "patch") eqn:E3;
    [right; right; left; apply String.eqb_eq, E3|].
  destruct (String.eqb mode "force") eqn:E4;
    [right; right; right; apply String.eqb_eq, E4|].
  discriminate.
Qed.

(** The unpacking never raises the error that reports a bad mode. *)
Lemma unpack3_ints_raise_kind (parts : list string) (e : exn) :
  unpack3_ints parts = Raise e -> e <> ValueError Invalid_version_type.
Proof.
  unfold unpack3_ints, next_of_3, next_int, mbind, outcome_bind.
  destruct parts as [|a [|b [|c [|x l]]]]; simpl;
    repeat match goal with
           | |- context [Py.int ?s] => destruct (Py.int s)
           end; intros [= <-]; discriminate.
Qed.

Lemma dict_set_absent (k : string) (v : json) (d : dict) :
  dict_get k d = None -> dict_set k v d = d ++ [(k, v)].
Proof.
  induction d as [|[k0 y] d IH]; simpl; [reflexivity|].
  destruct (String.eqb k0 k); [discriminate|].
  intros H. rewrite IH by exact H. reflexivity.
Qed.

(** The last assignment to a key wins. *)
Lemma dict_set_set (k : string) (v1 v2 : json) (d : dict) :
  dict_set k v2 (dict_set k v1 d) = dict_set k v2 d.
Proof.
  induction d as [|[k0 y] d IH]; simpl.
  - rewrite String.eqb_refl. reflexivity.
  - destruct (String.eqb k0 k) eqn:Hk; simpl; rewrite Hk;
      [reflexivity | rewrite IH; reflexivity].
Qed.

End ManifestMore.

Module ManifestExtra.
Import PyFacts JsonFacts ProgFacts ManifestFacts ManifestMore.
Import Samples Scenarios.

(** X2. [bump_version] succeeds only on a JSON object whose [version]
    member is a string of exactly three dot-separated pieces, and only
    in one of the modes major, minor, patch and force; when that string
    is ASCII, each of the three pieces is an integer for [int]. *)
Theorem bump_version_succeeds_only_if (path mode v : string)
    (w w1 : world) :
  bump_version path mode w = (Ok v, w1) ->
  exists (d : dict) (s : string),
    files w !! path = Some (Document (JDict d))
    /\ dict_get "version" d = Some (JString s)
    /\ length (Py.split "." s) = 3
    /\ (mode = "major" \/ mode = "minor" \/ mode = "patch"
        \/ mode = "force")
    /\ (Py.is_ascii s = true ->
        exists M m p : Z,
          map Py.int (Py.split "." s) = [Some M; Some m; Some p]).
Proof.
  intros Hrun.
  destruct (bump_version_ok_full _ _ _ _ _ Hrun)
    as (d & s & M & m & p & Hfile & Hget & Hparse & Hmode).
  exists d, s. split; [exact Hfile|]. split; [exact Hget|]. split.
  - rewrite <- (length_map Py.int), Hparse. reflexivity.
  - split; [exact Hmode|]. intros _. exists M, m, p. exact Hparse.
Qed.

Lemma bump_version_succeeds_only_if_witness :
  exists (d : dict) (s : string),
    files (checkout "1.2.3" "1.2.3") !! "manifest-beta.json"
    = Some (Document (JDict d))
    /\ dict_get "version" d = Some (JString s)
    /\ length (Py.split "." s) = 3
    /\ ("patch" = "major" \/ "patch" = "minor" \/ "patch" = "patch"
        \/ "patch" = "force")
    /\ (Py.is_ascii s = true ->
        exists M m p : Z,
          map Py.int (Py.split "." s) = [Some M; Some m; Some p]).
Proof.
  apply (bump_version_succeeds_only_if "manifest-beta.json" "patch" "1.2.4"
           (checkout "1.2.3" "1.2.3")
           (bump_version "manifest-beta.json" "patch"
              (checkout "1.2.3" "1.2.3")).2).
  vm_compute. reflexivity.
Defined.

(** X3. What [bump_version] raises before it looks at the version:
    [FileNotFoundError] for a missing file, [JSONDecodeError] for text
    that is not JSON, [TypeError] for a document that is not an object,
    [KeyError] for an object without [version], and [AttributeError]
    for a [version] that is not a string.  The mode plays no part in
    any of these, and the world is returned unchanged. *)
Theorem bump_version_failure_kinds (path mode : string) (w : world) :
  (files w !! path = None ->
   bump_version path mode w = (Raise (FileNotFoundError path), w))
  /\ (forall text,
        files w !! path = Some (Unparsable text) ->
        bump_version path mode w = (Raise (JSONDecodeError path), w))
  /\ (forall data,
        files w !! path = Some (Document data) ->
        (forall d, data <> JDict d) ->
        bump_version path mode w = (Raise TypeError, w))
  /\ (forall d,
        files w !! path = Some (Document (JDict d)) ->
        dict_get "version" d = None ->
        bump_version path mode w = (Raise (KeyError "version"), w))
  /\ (forall d x,
        files w !! path = Some (Document (JDict d)) ->
        dict_get "version" d = Some x ->
        (forall s, x <> JString s) ->
        bump_version path mode w = (Raise AttributeError, w)).
Proof.
  unfold bump_version, mbind, prog_bind, json_load.
  repeat split.
  - intros ->. reflexivity.
  - intros text ->. reflexivity.
  - intros data -> Hnot. destruct data; try reflexivity.
    exfalso. eapply Hnot. reflexivity.
  - intros d -> Hget. unfold lift, getitem. rewrite Hget. reflexivity.
  - intros d x -> Hget Hnot. unfold lift, getitem. rewrite Hget.
    destruct x; try reflexivity. exfalso. eapply Hnot. reflexivity.
Qed.

(** X4. The version is parsed before the mode is looked at: when
    [bump_version] raises the invalid-mode error, the manifest was an
    object with a well-formed version, and the mode is none of the four.
    A bad mode given together with a bad manifest is never reported. *)
Theorem invalid_mode_is_reported_last (path mode : string)
    (w w1 : world) :
  bump_version path mode w = (Raise (ValueError Invalid_version_type), w1) ->
  (exists (d : dict) (s : string) (M m p : Z),
     files w !! path = Some (Document (JDict d))
     /\ dict_get "version" d = Some (JString s)
     /\ map Py.int (Py.split "." s) = [Some M; Some m; Some p])
  /\ mode <> "major" /\ mode <> "minor" /\ mode <> "patch"
  /\ mode <> "force".
Proof.
  unfold bump_version, mbind, prog_bind, json_load.
  destruct (files w !! path) as [[text|data]|] eqn:Hfile; try discriminate.
  unfold lift, getitem.
  destruct data as [| | | | |?|d]; try discriminate.
  destruct (dict_get "version" d) as [cur|] eqn:Hget; [|discriminate].
  destruct cur as [| | | |s| |]; try discriminate.
  unfold str_split.
  destruct (unpack3_ints (Py.split "." s)) as [[[M m] p]|e] eqn:Hun.
  - destruct (String.eqb mode "major") eqn:E1; [discriminate|].
    destruct (String.eqb mode "minor") eqn:E2; [discriminate|].
    destruct (String.eqb mode "patch") eqn:E3; [discriminate|].
    destruct (String.eqb mode "force") eqn:E4; [discriminate|].
    intros _. split.
    + exists d, s, M, m, p. split; [reflexivity|]. split; [exact Hget|].
      apply unpack3_ints_ok_inv, Hun.
    + apply String.eqb_neq in E1, E2, E3, E4. auto.
  - intros [= He _]. apply unpack3_ints_raise_kind in Hun. congruence.
Qed.

Lemma invalid_mode_is_reported_last_witness :
  (exists (d : dict) (s : string) (M m p : Z),
     files (checkout "1.2.3" "1.2.3") !! "manifest-beta.json"
     = Some (Document (JDict d))
     /\ dict_get "version" d = Some (JString s)
     /\ map Py.int (Py.split "." s) = [Some M; Some m; Some p])
  /\ "Force" <> "major" /\ "Force" <> "minor" /\ "Force" <> "patch"
  /\ "Force" <> "force".
Proof.
  apply (invalid_mode_is_reported_last "manifest-beta.json" "Force"
           (checkout "1.2.3" "1.2.3") (checkout "1.2.3" "1.2.3")).
  vm_compute. reflexivity.
Defined.

(** X5. A version with the wrong number of components, all of them
    integers, is refused whatever the mode: with fewer than three
    pieces the error is the not-enough-values [ValueError], which
    carries the number of pieces found; with more than three it is the
    too-many-values [ValueError].  Only the first four pieces are ever
    converted, so what follows them has no influence. *)
Theorem wrong_number_of_components (path mode s : string) (w : world)
    (d : dict) :
  files w !! path = Some (Document (JDict d)) ->
  dict_get "version" d = Some (JString s) ->
  Forall (fun piece => is_Some (Py.int piece)) (take 4 (Py.split "." s)) ->
  length (Py.split "." s) <> 3 ->
  bump_version path mode w
  = (Raise (ValueError
              (if length (Py.split "." s) <? 3
               then Not_enough_values 3 (length (Py.split "." s))
               else Too_many_values 3)), w).
Proof.
  intros Hfile Hget Hints Hlen.
  rewrite (bump_version_run path mode w d s Hfile Hget).
  unfold unpack3_ints, next_of_3, next_int, mbind, outcome_bind.
  destruct (Py.split "." s) as [|a [|b [|c [|x l]]]]; simpl in *;
    try congruence;
    repeat match goal with
           | H : Forall _ (_ :: _) |- _ =>
               apply Forall_cons in H as [[? ->] H]
           end; reflexivity.
Qed.

Lemma wrong_number_of_components_witness :
  bump_version "manifest-beta.json" "patch" (checkout "1.2.3.4.x" "1.2.3")
  = (Raise (ValueError (Too_many_values 3)), checkout "1.2.3.4.x" "1.2.3")
  /\ bump_version "manifest-beta.json" "patch" (checkout "1.2" "1.2.3")
     = (Raise (ValueError (Not_enough_values 3 2)), checkout "1.2" "1.2.3").
Proof.
  split.
  - apply (wrong_number_of_components "manifest-beta.json" "patch"
             "1.2.3.4.x" (checkout "1.2.3.4.x" "1.2.3")
             (manifest "1.2.3.4.x")); [reflexivity | reflexivity | |].
    + vm_compute. repeat constructor; eexists; reflexivity.
    + vm_compute. discriminate.
  - apply (wrong_number_of_components "manifest-beta.json" "patch"
             "1.2" (checkout "1.2" "1.2.3") (manifest "1.2"));
      [reflexivity | reflexivity | |].
    + vm_compute. repeat constructor; eexists; reflexivity.
    + vm_compute. discriminate.
Defined.

(** X6. Bumps compose: the version that a successful [bump_version]
    leaves in the file is one it reads back as three integers, and a
    second call in any of the four modes succeeds and starts from those
    integers. *)
Theorem bump_version_twice (path mode mode' v : string) (w w1 : world) :
  bump_version path mode w = (Ok v, w1) ->
  mode' = "major" \/ mode' = "minor" \/ mode' = "patch"
  \/ mode' = "force" ->
  exists M m p : Z,
    map Py.int (Py.split "." v) = [Some M; Some m; Some p]
    /\ exists M' m' p' : Z,
         (mode' = "major" -> (M', m', p') = (M + 1, 0, 0)%Z)
         /\ (mode' = "minor" -> (M', m', p') = (M, m + 1, 0)%Z)
         /\ (mode' = "patch" -> (M', m', p') = (M, m, p + 1)%Z)
         /\ (mode' = "force" -> (M', m', p') = (M, m, p))
         /\ exists w2,
              bump_version path mode' w1
              = (Ok (format_version M' m' p'), w2).
Proof.
  intros Hrun Hmode'.
  destruct (bump_version_ok_full _ _ _ _ _ Hrun)
    as (d & s & M0 & m0 & p0 & Hfile & Hget & Hparse & Hmode).
  destruct (bump_version_modes w path mode s d M0 m0 p0 Hfile Hget Hparse
              Hmode) as (M & m & p & _ & _ & _ & _ & Hrun1 & Hback).
  rewrite Hrun1 in Hrun. injection Hrun as <- <-.
  exists M, m, p. split; [exact Hback|].
  destruct (bump_version_modes
              (written path
                 (dict_set "version" (JString (format_version M m p)) d) w)
              path mode' (format_version M m p)
              (dict_set "version" (JString (format_version M m p)) d)
              M m p) as (M' & m' & p' & H1 & H2 & H3 & H4 & Hrun2 & _).
  - simpl. apply lookup_insert_eq.
  - apply dict_get_set_eq.
  - exact Hback.
  - exact Hmode'.
  - exists M', m', p'. do 4 (split; [assumption|]). eauto.
Qed.

Lemma bump_version_twice_witness :
  exists w2,
    bump_version "manifest-beta.json" "patch"
      (bump_version "manifest-beta.json" "minor"
         (checkout "1.2.3" "1.2.3")).2
    = (Ok "1.3.1", w2).
Proof.
  pose (w1 := (bump_version "manifest-beta.json" "minor"
                 (checkout "1.2.3" "1.2.3")).2).
  assert (bump_version "manifest-beta.json" "minor"
            (checkout "1.2.3" "1.2.3") = (Ok "1.3.0", w1)) as Hrun
    by (vm_compute; reflexivity).
  destruct (bump_version_twice "manifest-beta.json" "minor" "patch" "1.3.0"
              (checkout "1.2.3" "1.2.3") w1 Hrun
              (or_intror (or_intror (or_introl eq_refl))))
    as (M & m & p & Hback & M' & m' & p' & _ & _ & Hpatch & _ & w2 & Hrun2).
  vm_compute in Hback. injection Hback as <- <- <-.
  specialize (Hpatch eq_refl). injection Hpatch as -> -> ->.
  exists w2. exact Hrun2.
Defined.

(** X7. Mode force rewrites the version in canonical form: whatever
    spelling of the three integers the file had (white space, a plus
    sign, leading zeros, underscores), the string returned and stored is
    their plain decimal rendering.  From then on force is a no-op: a
    second call returns the same string and leaves every file as it
    is. *)
Theorem force_normalises_then_settles (path s : string) (w : world)
    (d : dict) (M m p : Z) :
  files w !! path = Some (Document (JDict d)) ->
  dict_get "version" d = Some (JString s) ->
  map Py.int (Py.split "." s) = [Some M; Some m; Some p] ->
  let v := format_version M m p in
  exists w1 w2,
    bump_version path "force" w = (Ok v, w1)
    /\ version_field w1 path = Some (JString v)
    /\ bump_version path "force" w1 = (Ok v, w2)
    /\ files w2 = files w1.
Proof.
  intros Hfile Hget Hparse v.
  destruct (bump_version_modes w path "force" s d M m p Hfile Hget Hparse)
    as (M1 & m1 & p1 & _ & _ & _ & Hf & Hrun1 & Hback); [tauto|].
  specialize (Hf eq_refl). injection Hf as -> -> ->. fold v in Hrun1, Hback.
  set (d1 := dict_set "version" (JString v) d) in *.
  destruct (bump_version_modes (written path d1 w) path "force" v d1 M m p)
    as (M2 & m2 & p2 & _ & _ & _ & Hf & Hrun2 & _);
    [simpl; apply lookup_insert_eq | apply dict_get_set_eq | exact Hback
     | tauto |].
  specialize (Hf eq_refl). injection Hf as -> -> ->. fold v in Hrun2.
  eexists _, _. split; [exact Hrun1|]. split.
  { unfold version_field. simpl. rewrite lookup_insert_eq.
    apply dict_get_set_eq. }
  split; [exact Hrun2|]. simpl. unfold d1.
  rewrite dict_set_set. apply insert_insert_eq.
Qed.

Lemma force_normalises_then_settles_witness :
  exists w1 w2,
    bump_version "manifest-beta.json" "force" (checkout " 1.02.+3" "1.2.3")
    = (Ok "1.2.3", w1)
    /\ version_field w1 "manifest-beta.json" = Some (JString "1.2.3")
    /\ bump_version "manifest-beta.json" "force" w1 = (Ok "1.2.3", w2)
    /\ files w2 = files w1.
Proof.
  apply (force_normalises_then_settles "manifest-beta.json" " 1.02.+3"
           (checkout " 1.02.+3" "1.2.3") (manifest " 1.02.+3") 1 2 3);
    [reflexivity | reflexivity | vm_compute; reflexivity].
Defined.

(** X8. A manifest without a [version] member: [bump_version] raises
    [KeyError] and writes nothing, whereas [set_version] creates the
    member, placing it after the existing ones, which it keeps as they
    are. *)
Theorem missing_version_member (path mode v : string) (w : world)
    (d : dict) :
  files w !! path = Some (Document (JDict d)) ->
  dict_get "version" d = None ->
  bump_version path mode w = (Raise (KeyError "version"), w)
  /\ set_version path v w
     = (Ok v, written path (d ++ [("version", JString v)]) w).
Proof.
  intros Hfile Hget. split.
  - unfold bump_version, mbind, prog_bind, json_load. rewrite Hfile.
    unfold lift, getitem. rewrite Hget. reflexivity.
  - rewrite (set_version_run path v w d Hfile).
    rewrite dict_set_absent by exact Hget. reflexivity.
Qed.

Lemma missing_version_member_witness :
  bump_version "manifest.json" "patch" (single "manifest.json" unversioned)
  = (Raise (KeyError "version"), single "manifest.json" unversioned)
  /\ set_version "manifest.json" "1.2.3" (single "manifest.json" unversioned)
     = (Ok "1.2.3",
        written "manifest.json"
          (unversioned ++ [("version", JString "1.2.3")])
          (single "manifest.json" unversioned)).
Proof.
  apply (missing_version_member "manifest.json" "patch" "1.2.3"
           (single "manifest.json" unversioned) unversioned);
    reflexivity.
Defined.

(** X9. What [set_version] does with each kind of file: it raises
    [FileNotFoundError] for a missing file, [JSONDecodeError] for text
    that is not JSON and [TypeError] for a document that is not an
    object, the world unchanged in each case; it succeeds only on a
    JSON object, and then returns and stores the string it was given,
    which it never examines. *)
Theorem set_version_outcomes (path v : string) (w : world) :
  (files w !! path = None ->
   set_version path v w = (Raise (FileNotFoundError path), w))
  /\ (forall text,
        files w !! path = Some (Unparsable text) ->
        set_version path v w = (Raise (JSONDecodeError path), w))
  /\ (forall data,
        files w !! path = Some (Document data) ->
        (forall d, data <> JDict d) ->
        set_version path v w = (Raise TypeError, w))
  /\ (forall v' w1,
        set_version path v w = (Ok v', w1) ->
        v' = v
        /\ (exists d, files w !! path = Some (Document (JDict d)))
        /\ version_field w1 path = Some (JString v)).
Proof.
  repeat split.
  - intros H. unfold set_version, mbind, prog_bind, json_load.
    rewrite H. reflexivity.
  - intros text H. unfold set_version, mbind, prog_bind, json_load.
    rewrite H. reflexivity.
  - intros data H Hnot. unfold set_version, mbind, prog_bind, json_load.
    rewrite H. destruct data; try reflexivity.
    exfalso. eapply Hnot. reflexivity.
  - apply set_version_ok_inv in H as [-> _]. reflexivity.
  - apply set_version_ok_inv in H as (_ & d & Hd & _). eauto.
  - apply set_version_ok_inv in H as (_ & d & _ & ->).
    unfold version_field, written. simpl. rewrite lookup_insert_eq.
    apply dict_get_set_eq.
Qed.

(** X10. The last [set_version] wins: writing one version and then
    another leaves the files exactly as writing the second one alone;
    in particular writing the same version twice changes nothing the
    second time. *)
Theorem set_version_last_wins (path v1 v2 : string) (w : world) (d : dict) :
  files w !! path = Some (Document (JDict d)) ->
  exists w1 w2 w2',
    set_version path v1 w = (Ok v1, w1)
    /\ set_version path v2 w1 = (Ok v2, w2)
    /\ set_version path v2 w = (Ok v2, w2')
    /\ files w2 = files w2'
    /\ (v1 = v2 -> files w2 = files w1).
Proof.
  intros Hfile.
  pose proof (set_version_run path v1 w d Hfile) as H1.
  pose proof (set_version_run path v2 w d Hfile) as H2.
  assert (files (written path (dict_set "version" (JString v1) d) w) !! path
          = Some (Document (JDict (dict_set "version" (JString v1) d))))
    as Hfile1 by (simpl; apply lookup_insert_eq).
  pose proof (set_version_run path v2 _ _ Hfile1) as H12.
  eexists _, _, _. split; [exact H1|]. split; [exact H12|].
  split; [exact H2|]. simpl. rewrite dict_set_set. split.
  - apply insert_insert_eq.
  - intros ->. apply insert_insert_eq.
Qed.

Lemma set_version_last_wins_witness :
  exists w1 w2 w2',
    set_version "manifest.json" "1.2.3" (checkout "1.2.3" "1.2.0")
    = (Ok "1.2.3", w1)
    /\ set_version "manifest.json" "2.0.0" w1 = (Ok "2.0.0", w2)
    /\ set_version "manifest.json" "2.0.0" (checkout "1.2.3" "1.2.0")
       = (Ok "2.0.0", w2')
    /\ files w2 = files w2'
    /\ ("1.2.3" = "2.0.0" -> files w2 = files w1).
Proof.
  apply (set_version_last_wins "manifest.json" "1.2.3" "2.0.0"
           (checkout "1.2.3" "1.2.0") (manifest "1.2.0")).
  reflexivity.
Defined.

(** X21. Different versions are written differently: the rendering of
    three integers determines them, so two bumps that compute
    different components never produce the same tag name. *)
Theorem format_version_injective (a b c a' b' c' : Z) :
  format_version a b c = format_version a' b' c' ->
  a = a' /\ b = b' /\ c = c'.
Proof.
  intros Heq. pose proof (split_format_version a b c) as H.
  rewrite Heq, split_format_version in H. injection H as -> -> ->. auto.
Qed.

Lemma format_version_injective_witness :
  (1 = 1 /\ 2 = 2 /\ 3 = 3)%Z.
Proof.
  apply (format_version_injective 1 2 3 1 2 3). reflexivity.
Defined.

(** X22. A bump in mode major, minor or patch moves the version
    strictly forward in the order of (major, minor, patch), negative
    components included; the string it returns and writes is therefore
    never the one that was in the file. *)
Theorem bump_version_moves_forward (path mode s v : string) (w w1 : world)
    (d : dict) (M m p : Z) :
  files w !! path = Some (Document (JDict d)) ->
  dict_get "version" d = Some (JString s) ->
  map Py.int (Py.split "." s) = [Some M; Some m; Some p] ->
  mode = "major" \/ mode = "minor" \/ mode = "patch" ->
  bump_version path mode w = (Ok v, w1) ->
  (exists M' m' p' : Z,
     map Py.int (Py.split "." v) = [Some M'; Some m'; Some p']
     /\ (M < M' \/ (M = M' /\ m < m') \/ (M = M' /\ m = m' /\ p < p'))%Z)
  /\ v <> s.
Proof.
  intros Hfile Hget Hparse Hmode Hrun.
  destruct (bump_version_modes w path mode s d M m p Hfile Hget Hparse)
    as (M' & m' & p' & H1 & H2 & H3 & _ & Hrun' & Hback); [tauto|].
  rewrite Hrun' in Hrun. injection Hrun as <- _.
  assert (M < M' \/ (M = M' /\ m < m') \/ (M = M' /\ m = m' /\ p < p'))%Z
    as Hlt.
  { destruct Hmode as [Hm | [Hm | Hm]];
      [specialize (H1 Hm); injection H1 as -> -> ->
      |specialize (H2 Hm); injection H2 as -> -> ->
      |specialize (H3 Hm); injection H3 as -> -> ->]; lia. }
  split; [exists M', m', p'; auto|].
  intros Heq. rewrite Heq, Hparse in Hback.
  injection Hback as -> -> ->. lia.
Qed.

Lemma bump_version_moves_forward_witness :
  (exists M' m' p' : Z,
     map Py.int (Py.split "." "-1.0.0") = [Some M'; Some m'; Some p']
     /\ (-2 < M' \/ (-2 = M' /\ 9 < m') \/ (-2 = M' /\ 9 = m' /\ 9 < p'))%Z)
  /\ "-1.0.0" <> "-2.9.9".
Proof.
  pose (w := checkout "-2.9.9" "1.2.3").
  assert (map Py.int (Py.split "." "-2.9.9")
          = [Some (-2)%Z; Some 9%Z; Some 9%Z]) as Hparse
    by (vm_compute; reflexivity).
  assert (bump_version "manifest-beta.json" "major" w
          = (Ok "-1.0.0", (bump_version "manifest-beta.json" "major" w).2))
    as Hrun by (vm_compute; reflexivity).
  exact (bump_version_moves_forward "manifest-beta.json" "major" "-2.9.9"
           "-1.0.0" w _ (manifest "-2.9.9") (-2) 9 9
           eq_refl eq_refl Hparse (or_introl eq_refl) Hrun).
Defined.

End ManifestExtra.

(** ** More on the run of [main] *)

Module ReleaseMore.
Import PyFacts JsonFacts ProgFacts ManifestFacts ReleaseFacts Runs.

Lemma except_git_ok_swallowed (E : env) (c : git_call) (w w1 : world) :
  except_GitCommandError_pass (git E c) w = (Ok tt, w1) ->
  git_raises E c = None \/ git_raises E c = Some GitCommandError.
Proof.
  unfold except_GitCommandError_pass.
  destruct (git_raises E c) as [e|] eqn:H; [|auto].
  rewrite (git_raise _ _ _ _ H). destruct e; try discriminate. auto.
Qed.

(** The steps of [main_publish] after the manifests are written. *)
Lemma main_publish_run (E : env) (version_type v : string)
    (w w1 w2 : world) :
  git_raises E (Repo_open ".") = None ->
  bump_version "manifest-beta.json" version_type
    (World (files w) (trace w ++ [Git (Repo_open ".")])) = (Ok v, w1) ->
  set_version "manifest.json" v w1 = (Ok v, w2) ->
  unhindered E version_type v ->
  main_publish E version_type w
  = (Ok v, World (files w2) (trace w2 ++ release_calls E version_type v)).
Proof.
  intros Hopen Hbump Hset (H1 & H2 & H3 & H4 & H5 & H6 & H7 & H8 & H9).
  unfold main_publish.
  erewrite bind_ok by (apply git_ok, Hopen).
  erewrite bind_ok by exact Hbump.
  erewrite bind_ok by exact Hset.
  erewrite bind_ok by (apply delete_tag_run; assumption).
  erewrite bind_ok by (apply git_ok, H3).
  erewrite bind_ok by (apply git_ok, H4).
  erewrite bind_ok by (apply except_git_pass, H5).
  erewrite bind_ok by (apply git_ok, H6).
  erewrite bind_ok by (apply git_ok, H7).
  erewrite bind_ok by (apply git_ok, H8).
  erewrite bind_ok by (apply git_ok, H9).
  unfold release_calls. simpl. rewrite <- !app_assoc. reflexivity.
Qed.

(** What a successful [main_publish] went through. *)
Lemma main_publish_ok_steps (E : env) (version_type v : string)
    (w w' : world) :
  main_publish E version_type w = (Ok v, w') ->
  exists w1 w2,
    git_raises E (Repo_open ".") = None
    /\ bump_version "manifest-beta.json" version_type
         (World (files w) (trace w ++ [Git (Repo_open ".")])) = (Ok v, w1)
    /\ set_version "manifest.json" v w1 = (Ok v, w2)
    /\ unhindered E version_type v
    /\ w' = World (files w2) (trace w2 ++ release_calls E version_type v).
Proof.
  intros Hpub. pose proof Hpub as H. unfold main_publish in H.
  apply bind_ok_inv in H as ([] & w0 & Hopen & H).
  apply git_ok_inv in Hopen as [Hopen ->].
  apply bind_ok_inv in H as (v0 & w1 & Hbump & H).
  apply bind_ok_inv in H as (v1 & w2 & Hset & H).
  pose proof Hset as Hset'. apply set_version_ok_inv in Hset' as (-> & _).
  unfold delete_tag in H.
  apply bind_ok_inv in H as ([] & w3 & Hdel & H).
  apply bind_ok_inv in Hdel as ([] & w3' & Hd1 & Hd2).
  pose proof (except_git_ok_swallowed _ _ _ _ Hd1) as T1.
  pose proof (except_git_ok_swallowed _ _ _ _ Hd2) as T2.
  apply bind_ok_inv in H as ([] & w4 & Hadd1 & H).
  apply git_ok_inv in Hadd1 as [A1 _].
  apply bind_ok_inv in H as ([] & w5 & Hadd2 & H).
  apply git_ok_inv in Hadd2 as [A2 _].
  apply bind_ok_inv in H as ([] & w6 & Hcommit & H).
  pose proof (except_git_ok_swallowed _ _ _ _ Hcommit) as T3.
  apply bind_ok_inv in H as ([] & w7 & Hpush & H).
  apply git_ok_inv in Hpush as [A3 _].
  apply bind_ok_inv in H as ([] & w8 & Htag & H).
  apply git_ok_inv in Htag as [A4 _].
  apply bind_ok_inv in H as ([] & w9 & Hremote & H).
  apply git_ok_inv in Hremote as [A5 _].
  apply bind_ok_inv in H as ([] & w10 & Hrpush & H).
  apply git_ok_inv in Hrpush as [A6 _].
  injection H as <- _.
  assert (unhindered E version_type v0) as Hun
    by (repeat split; assumption).
  exists w1, w2. split; [exact Hopen|]. split; [exact Hbump|].
  split; [exact Hset|]. split; [exact Hun|].
  rewrite (main_publish_run E version_type v0 w w1 w2 Hopen Hbump Hset Hun)
    in Hpub.
  injection Hpub as <-. reflexivity.
Qed.

Lemma written_paths_app (t t' : list effect) :
  written_paths (t ++ t') = written_paths t ++ written_paths t'.
Proof.
  induction t as [|e t IH]; [reflexivity|].
  destruct e; simpl; rewrite IH; reflexivity.
Qed.

Lemma written_paths_no_write (t : list effect) :
  Forall no_write t -> written_paths t = [].
Proof.
  induction 1 as [|e t He _ IH]; [reflexivity|].
  destruct e; simpl in *; [contradiction | exact IH ..].
Qed.

(** After the manifests are written, [main] writes no file. *)
Lemma main_after_write_quiet (E : env) (version_type v : string)
    (w w1 w2 : world) :
  git_raises E (Repo_open ".") = None ->
  bump_version "manifest-beta.json" version_type
    (World (files w) (trace w ++ [Git (Repo_open ".")])) = (Ok v, w1) ->
  set_version "manifest.json" v w1 = (Ok v, w2) ->
  exists r t,
    main E version_type w = (r, World (files w2) (trace w2 ++ t))
    /\ Forall no_write t.
Proof.
  intros Hopen Hbump Hset. unfold main.
  erewrite bind_ok by (apply git_ok, Hopen).
  erewrite bind_ok by exact Hbump.
  erewrite bind_ok by exact Hset.
  match goal with
  | |- exists r t, ?rest w2 = _ /\ _ =>
      assert (appends no_write rest) as Hrest
        by (unfold print, sleep; solve_appends);
      destruct (Hrest w2) as (Hfiles & t & Htrace & Hquiet);
      destruct (rest w2) as [r w']
  end.
  exists r, t. split; [|exact Hquiet].
  f_equal. apply world_eta; assumption.
Qed.

(** When [set_version] raises, [main] stops with the world that
    [bump_version] left. *)
Lemma main_set_raises (E : env) (version_type v : string) (e : exn)
    (w w1 w1' : world) :
  git_raises E (Repo_open ".") = None ->
  bump_version "manifest-beta.json" version_type
    (World (files w) (trace w ++ [Git (Repo_open ".")])) = (Ok v, w1) ->
  set_version "manifest.json" v w1 = (Raise e, w1') ->
  main E version_type w = (Raise e, w1).
Proof.
  intros Hopen Hbump Hset.
  pose proof (set_version_raise_inv _ _ _ _ _ Hset). subst w1'.
  unfold main. erewrite bind_ok by (apply git_ok, Hopen).
  erewrite bind_ok by exact Hbump.
  erewrite bind_raise by exact Hset. reflexivity.
Qed.

End ReleaseMore.

Module ReleaseExtra.
Import PyFacts JsonFacts ProgFacts ManifestFacts ReleaseFacts.
Import Runs ReleaseMore Samples Scenarios.

(** X11. [main] returns normally exactly when the repository opens,
    [bump_version] and [set_version] succeed, every git call after them
    succeeds (the two tag deletions and the commit may also raise
    [GitCommandError]), and the platform answers both queries.  The run
    then consists of the two writes, the nine git calls in their order
    and the confirmation, and nothing else. *)
Theorem main_succeeds_iff (E : env) (mode : string) (w w' : world) :
  main E mode w = (Ok tt, w')
  <->
  exists (v : string) (w1 w2 : world) (tags : list string),
    git_raises E (Repo_open ".") = None
    /\ bump_version "manifest-beta.json" mode
         (World (files w) (trace w ++ [Git (Repo_open ".")])) = (Ok v, w1)
    /\ set_version "manifest.json" v w1 = (Ok v, w2)
    /\ unhindered E mode v
    /\ get_repo_raises E "no-instructions/relay" = None
    /\ release_tags E "no-instructions/relay" = inr tags
    /\ w' = World (files w2)
              (trace w2 ++ release_calls E mode v ++ confirm_trace v tags).
Proof.
  rewrite main_segments. split.
  - intros H. apply bind_ok_inv in H as (v & wp & Hpub & Hconf).
    apply main_publish_ok_steps in Hpub
      as (w1 & w2 & Hopen & Hbump & Hset & Hun & ->).
    apply main_confirm_ok_inv in Hconf as (tags & Hrepo & Htags & ->).
    exists v, w1, w2, tags. repeat (split; [assumption|]).
    simpl. rewrite <- app_assoc. reflexivity.
  - intros (v & w1 & w2 & tags & Hopen & Hbump & Hset & Hun & Hrepo & Htags
            & ->).
    erewrite bind_ok by (eapply main_publish_run; eassumption).
    rewrite (main_confirm_run E v tags _ Hrepo Htags).
    simpl. rewrite <- app_assoc. reflexivity.
Qed.

(** X12. When [bump_version] fails (a missing or malformed beta
    manifest, a malformed version, a bad mode), [main] fails too,
    having done nothing but open the repository: no file is written,
    no git command is issued and the platform is not asked. *)
Theorem main_stops_when_bump_fails (E : env) (mode : string) (e : exn)
    (w w1 : world) :
  bump_version "manifest-beta.json" mode
    (World (files w) (trace w ++ [Git (Repo_open ".")])) = (Raise e, w1) ->
  exists e',
    main E mode w
    = (Raise e', World (files w) (trace w ++ [Git (Repo_open ".")])).
Proof.
  intros Hbump. destruct (git_raises E (Repo_open ".")) as [e0|] eqn:Hopen.
  - exists e0. unfold main.
    erewrite bind_raise by (apply git_raise, Hopen). reflexivity.
  - exists e. apply (main_bump_raises E mode e w w1 Hopen Hbump).
Qed.

Lemma main_stops_when_bump_fails_witness :
  exists e',
    main (calm []) "bogus" (checkout "1.2.3" "1.2.3")
    = (Raise e', World (files (checkout "1.2.3" "1.2.3"))
                   [Git (Repo_open ".")]).
Proof.
  apply (main_stops_when_bump_fails (calm []) "bogus"
           (ValueError Invalid_version_type) (checkout "1.2.3" "1.2.3")
           (World (files (checkout "1.2.3" "1.2.3")) [Git (Repo_open ".")])).
  vm_compute. reflexivity.
Defined.

(** X13. There is no rollback.  When the beta manifest has been bumped
    and [set_version] then fails on the primary manifest, [main] raises
    that exception and stops: the beta manifest keeps the new version,
    the primary manifest is as it was, and no git command other than
    opening the repository has run. *)
Theorem beta_stays_bumped_when_primary_fails (E : env) (mode v : string)
    (e : exn) (w w1 w1' : world) :
  git_raises E (Repo_open ".") = None ->
  bump_version "manifest-beta.json" mode
    (World (files w) (trace w ++ [Git (Repo_open ".")])) = (Ok v, w1) ->
  set_version "manifest.json" v w1 = (Raise e, w1') ->
  main E mode w = (Raise e, w1)
  /\ version_field w1 "manifest-beta.json" = Some (JString v)
  /\ files w1 !! "manifest.json" = files w !! "manifest.json"
  /\ exists text,
       trace w1
       = trace w ++ [Git (Repo_open "."); Write "manifest-beta.json" text].
Proof.
  intros Hopen Hbump Hset.
  split; [exact (main_set_raises E mode v e w w1 w1' Hopen Hbump Hset)|].
  apply bump_version_ok_inv in Hbump as (d & Hd & ->).
  unfold version_field, written. simpl. split.
  { rewrite lookup_insert_eq. apply dict_get_set_eq. }
  split; [apply lookup_insert_ne; discriminate|].
  eexists. rewrite <- app_assoc. reflexivity.
Qed.

Lemma beta_stays_bumped_when_primary_fails_witness :
  let w1 := (main (calm []) "patch" (beta_only "1.2.3")).2 in
  (main (calm []) "patch" (beta_only "1.2.3")).1
  = Raise (FileNotFoundError "manifest.json")
  /\ version_field w1 "manifest-beta.json" = Some (JString "1.2.4").
Proof.
  pose (w0 := World (files (beta_only "1.2.3")) [Git (Repo_open ".")]).
  pose (wb := (bump_version "manifest-beta.json" "patch" w0).2).
  assert (bump_version "manifest-beta.json" "patch" w0 = (Ok "1.2.4", wb))
    as Hbump by (vm_compute; reflexivity).
  assert (set_version "manifest.json" "1.2.4" wb
          = (Raise (FileNotFoundError "manifest.json"), wb)) as Hset
    by (vm_compute; reflexivity).
  destruct (beta_stays_bumped_when_primary_fails (calm []) "patch" "1.2.4"
              (FileNotFoundError "manifest.json") (beta_only "1.2.3") wb wb
              eq_refl Hbump Hset) as (Hmain & Hbeta & _).
  intros w1. unfold w1. rewrite Hmain. split; [reflexivity | exact Hbeta].
Defined.

(** X14. The push of the branch is not guarded: when it raises, even a
    [GitCommandError], [main] raises it and stops.  The manifests keep
    the new version, the old tag has been deleted and the commit
    attempted, but the new tag is neither created nor pushed and the
    platform is not asked. *)
Theorem push_failure_stops_the_run (E : env) (mode v : string) (e : exn)
    (w w1 w2 : world) :
  git_raises E (Repo_open ".") = None ->
  bump_version "manifest-beta.json" mode
    (World (files w) (trace w ++ [Git (Repo_open ".")])) = (Ok v, w1) ->
  set_version "manifest.json" v w1 = (Ok v, w2) ->
  tolerated E (Git_push_delete (REMOTE E) v) ->
  tolerated E (Repo_delete_tag v) ->
  git_raises E (Git_add "manifest.json") = None ->
  git_raises E (Git_add "manifest-beta.json") = None ->
  tolerated E (Git_commit ("version: bump the version to " +:+ v)) ->
  git_raises E (Git_push (String.eqb mode "force")) = Some e ->
  main E mode w
  = (Raise e,
     World (files w2)
       (trace w2
        ++ [Git (Git_push_delete (REMOTE E) v);
            Git (Repo_delete_tag v);
            Git (Git_add "manifest.json");
            Git (Git_add "manifest-beta.json");
            Git (Git_commit ("version: bump the version to " +:+ v));
            Git (Git_push (String.eqb mode "force"))])).
Proof.
  intros Hopen Hbump Hset T1 T2 A1 A2 T3 Hpush. unfold main.
  erewrite bind_ok by (apply git_ok, Hopen).
  erewrite bind_ok by exact Hbump.
  erewrite bind_ok by exact Hset.
  erewrite bind_ok by (apply delete_tag_run; assumption).
  erewrite bind_ok by (apply git_ok, A1).
  erewrite bind_ok by (apply git_ok, A2).
  erewrite bind_ok by (apply except_git_pass, T3).
  erewrite bind_raise by (apply git_raise, Hpush).
  simpl. rewrite <- !app_assoc. reflexivity.
Qed.

Lemma push_failure_stops_the_run_witness :
  exists w2,
    main push_rejected "minor" (checkout "1.2.3" "1.2.3")
    = (Raise GitCommandError,
       World (files w2)
         (trace w2
          ++ [Git (Git_push_delete "origin" "1.3.0");
              Git (Repo_delete_tag "1.3.0");
              Git (Git_add "manifest.json");
              Git (Git_add "manifest-beta.json");
              Git (Git_commit "version: bump the version to 1.3.0");
              Git (Git_push false)]))
    /\ version_field w2 "manifest-beta.json" = Some (JString "1.3.0")
    /\ version_field w2 "manifest.json" = Some (JString "1.3.0").
Proof.
  pose (w0 := World (files (checkout "1.2.3" "1.2.3")) [Git (Repo_open ".")]).
  pose (w1 := (bump_version "manifest-beta.json" "minor" w0).2).
  pose (w2 := (set_version "manifest.json" "1.3.0" w1).2).
  assert (bump_version "manifest-beta.json" "minor" w0 = (Ok "1.3.0", w1))
    as Hbump by (vm_compute; reflexivity).
  assert (set_version "manifest.json" "1.3.0" w1 = (Ok "1.3.0", w2))
    as Hset by (vm_compute; reflexivity).
  pose proof (push_failure_stops_the_run push_rejected "minor" "1.3.0"
                GitCommandError (checkout "1.2.3" "1.2.3") w1 w2
                eq_refl Hbump Hset (or_introl eq_refl) (or_introl eq_refl)
                eq_refl eq_refl (or_introl eq_refl) eq_refl) as Hmain.
  exists w2. split; [exact Hmain|].
  split; vm_compute; reflexivity.
Defined.

(** X15. A failure of the platform comes too late to undo anything:
    once the tag is pushed, an exception from either query is raised to
    the caller after the wait, and neither message is printed. *)
Theorem platform_failure_after_publish (E : env) (mode v : string)
    (w w1 : world) :
  main_publish E mode w = (Ok v, w1) ->
  (forall e,
     get_repo_raises E "no-instructions/relay" = Some e ->
     main E mode w
     = (Raise e,
        World (files w1)
          (trace w1
           ++ [Print "Waiting for GitHub to create the release...";
               Sleep 30;
               Get_repo "no-instructions/relay"])))
  /\ (forall e,
        get_repo_raises E "no-instructions/relay" = None ->
        release_tags E "no-instructions/relay" = inl e ->
        main E mode w
        = (Raise e,
           World (files w1)
             (trace w1
              ++ [Print "Waiting for GitHub to create the release...";
                  Sleep 30;
                  Get_repo "no-instructions/relay";
                  Get_releases "no-instructions/relay"]))).
Proof.
  intros Hpub. split; intros e.
  - intros Hrepo. rewrite main_segments. erewrite bind_ok by exact Hpub.
    unfold main_confirm, get_repo, print, sleep, emit, mbind, prog_bind.
    simpl. rewrite Hrepo. simpl. rewrite <- !app_assoc. reflexivity.
  - intros Hrepo Htags. rewrite main_segments.
    erewrite bind_ok by exact Hpub.
    unfold main_confirm, get_repo, get_release_tag_names, print, sleep,
      emit, mbind, prog_bind.
    simpl. rewrite Hrepo. simpl. rewrite Htags. simpl.
    rewrite <- !app_assoc. reflexivity.
Qed.

Lemma platform_failure_after_publish_witness :
  exists w1,
    main offline "patch" (checkout "1.2.3" "1.2.3")
    = (Raise (OtherException "GithubException"),
       World (files w1)
         (trace w1
          ++ [Print "Waiting for GitHub to create the release...";
              Sleep 30;
              Get_repo "no-instructions/relay"])).
Proof.
  pose (w1 := (main_publish offline "patch" (checkout "1.2.3" "1.2.3")).2).
  assert (main_publish offline "patch" (checkout "1.2.3" "1.2.3")
          = (Ok "1.2.4", w1)) as Hpub by (vm_compute; reflexivity).
  destruct (platform_failure_after_publish offline "patch" "1.2.4"
              (checkout "1.2.3" "1.2.3") w1 Hpub) as [Hrepo _].
  exists w1. apply Hrepo. reflexivity.
Defined.

(** X16. Whatever the environment, the mode and the outcome, the only
    files that [main] itself opens for writing are the two manifests:
    in a run it writes nothing, or the beta manifest, or the beta
    manifest and then the primary one, never a file twice and never
    any other path. *)
Theorem main_writes_only_the_manifests (E : env) (mode : string)
    (w : world) :
  exists t,
    trace (main E mode w).2 = trace w ++ t
    /\ (written_paths t = []
        \/ written_paths t = ["manifest-beta.json"]
        \/ written_paths t = ["manifest-beta.json"; "manifest.json"]).
Proof.
  destruct (git_raises E (Repo_open ".")) as [e0|] eqn:Hopen.
  { unfold main. erewrite bind_raise by (apply git_raise, Hopen).
    exists [Git (Repo_open ".")]. auto. }
  destruct (bump_version "manifest-beta.json" mode
              (World (files w) (trace w ++ [Git (Repo_open ".")])))
    as [[v|e] w1] eqn:Hbump.
  2: { rewrite (main_bump_raises E mode e w w1 Hopen Hbump).
       exists [Git (Repo_open ".")]. auto. }
  destruct (set_version "manifest.json" v w1) as [[v'|e] w2] eqn:Hset.
  - pose proof Hset as Hset'.
    apply set_version_ok_inv in Hset' as (-> & _).
    destruct (main_after_write_quiet E mode v w w1 w2 Hopen Hbump Hset)
      as (r & t & -> & Hquiet).
    apply bump_version_ok_inv in Hbump as (d & _ & ->).
    apply set_version_ok_inv in Hset as (_ & d' & _ & ->).
    eexists. split.
    + simpl. rewrite <- !app_assoc. reflexivity.
    + right. right. simpl.
      rewrite (written_paths_no_write t Hquiet). reflexivity.
  - rewrite (main_set_raises E mode v e w w1 w2 Hopen Hbump Hset).
    apply bump_version_ok_inv in Hbump as (d & _ & ->).
    eexists. split.
    + simpl. rewrite <- !app_assoc. reflexivity.
    + right. left. reflexivity.
Qed.

(** X17. [delete_tag] swallows [GitCommandError] and nothing else.  Any
    other exception from the remote deletion is raised at once, and
    the local tag is then not deleted; any other exception from the
    local deletion is raised after the remote one was attempted. *)
Theorem delete_tag_lets_other_errors_through (E : env) (tag : string)
    (e : exn) (w : world) :
  e <> GitCommandError ->
  (git_raises E (Git_push_delete (REMOTE E) tag) = Some e ->
   delete_tag E tag w
   = (Raise e,
      World (files w) (trace w ++ [Git (Git_push_delete (REMOTE E) tag)])))
  /\ (tolerated E (Git_push_delete (REMOTE E) tag) ->
      git_raises E (Repo_delete_tag tag) = Some e ->
      delete_tag E tag w
      = (Raise e,
         World (files w)
           (trace w ++ [Git (Git_push_delete (REMOTE E) tag);
                        Git (Repo_delete_tag tag)]))).
Proof.
  intros Hne. unfold delete_tag. split.
  - intros Hremote.
    erewrite bind_raise by (apply except_git_other; eassumption).
    reflexivity.
  - intros Hremote Hlocal.
    erewrite bind_ok by (apply except_git_pass, Hremote).
    rewrite (except_git_other E _ e _ Hlocal Hne). simpl.
    rewrite <- app_assoc. reflexivity.
Qed.

Lemma delete_tag_lets_other_errors_through_witness :
  delete_tag no_git "1.2.4" (checkout "1.2.4" "1.2.4")
  = (Raise (OtherException "GitCommandNotFound"),
     World (files (checkout "1.2.4" "1.2.4"))
       [Git (Git_push_delete "origin" "1.2.4")]).
Proof.
  assert (OtherException "GitCommandNotFound" <> GitCommandError) as Hne
    by discriminate.
  destruct (delete_tag_lets_other_errors_through no_git "1.2.4"
              (OtherException "GitCommandNotFound")
              (checkout "1.2.4" "1.2.4") Hne) as [Hremote _].
  apply Hremote. reflexivity.
Defined.

End ReleaseExtra.

(** ** More on the watcher *)

Module WatchMore.
Import PyFacts Watch.

Lemma event_loop_sigint (received : list event) (later : list input) :
  event_loop (map Delivered received ++ Sigint :: later)
  = ((event_loop (map Delivered received)).1 ++ ["Stopping..."], Exited 0).
Proof.
  induction received as [|e received IH]; simpl; [reflexivity|].
  rewrite IH. destruct (event_loop (map Delivered received)) as [lines st].
  simpl. rewrite app_assoc. reflexivity.
Qed.

(** The loop ends only through the interrupt handler. *)
Lemma event_loop_status (inputs : list input) :
  (event_loop inputs).2 = Listening \/ (event_loop inputs).2 = Exited 0.
Proof.
  induction inputs as [|[e|] inputs IH]; simpl; auto.
  destruct (event_loop inputs) as [lines st]. exact IH.
Qed.

Lemma on_event_modify (ev : event) :
  "IN_MODIFY" ∈ type_names ev ->
  on_event ev = ["Modified file: " +:+ path ev +:+ "/" +:+ filename ev].
Proof.
  intros Hin. destruct ev as [hd names p f]. simpl in *.
  rewrite (proj2 (contains_elem_of _ _) Hin). reflexivity.
Qed.

Lemma on_event_other (ev : event) :
  "IN_MODIFY" ∉ type_names ev -> on_event ev = [].
Proof.
  intros Hin. destruct ev as [hd names p f]. simpl in *.
  destruct (Py.contains "IN_MODIFY" names) eqn:H; [|reflexivity].
  apply contains_elem_of in H. contradiction.
Qed.

End WatchMore.

Module WatchExtra.
Import PyFacts Watch WatchMore Scenarios.

(** X18. An interrupt ends the watch: the lines printed so far are
    followed by the stopping message, the exit code is 0, and whatever
    would have been delivered afterwards is never looked at. *)
Theorem interrupt_ends_the_watch (directory : string)
    (received : list event) (later : list input) :
  main None directory (map Delivered received ++ Sigint :: later)
  = ((main None directory (map Delivered received)).1 ++ ["Stopping..."],
     Exited 0).
Proof.
  unfold main. rewrite event_loop_sigint.
  destruct (event_loop (map Delivered received)) as [lines st].
  reflexivity.
Qed.


(** X20. Only modify events show.  The output is the same as if every
    event without [IN_MODIFY] among its type names had never been
    delivered, and it has one line per modify event after the opening
    line. *)
Theorem other_events_leave_no_trace (directory : string)
    (received : list event) :
  let modifies (ev : event) := "IN_MODIFY" ∈ type_names ev in
  main None directory (map Delivered received)
  = main None directory (map Delivered (filter modifies received))
  /\ length (main None directory (map Delivered received)).1
     = S (length (filter modifies received)).
Proof.
  intros modifies. unfold main.
  assert (event_loop (map Delivered received)
          = event_loop (map Delivered (filter modifies received))
          /\ length (event_loop (map Delivered received)).1
             = length (filter modifies received)) as [Heq Hlen].
  { induction received as [|ev received [IH IHlen]]; [auto|].
    destruct (decide (modifies ev)) as [Hin|Hout].
    - rewrite filter_cons_True by exact Hin. simpl.
      rewrite <- IH, (on_event_modify ev Hin).
      destruct (event_loop (map Delivered received)) as [lines st].
      simpl in *. auto.
    - rewrite filter_cons_False by exact Hout. simpl.
      rewrite <- IH, (on_event_other ev Hout).
      destruct (event_loop (map Delivered received)) as [lines st].
      simpl in *. auto. }
  rewrite <- Heq.
  destruct (event_loop (map Delivered received)) as [lines st].
  simpl in *. auto.
Qed.

End WatchExtra.
